(** * Offline map package pipeline of the Kolkata map screen

    A shallow embedding of [MapScreen] (app/(tabs)/index.tsx): the region
    gate, the availability check, the download / validate / install
    pipeline and the delete handler, together with the properties that the
    specification states about them; and, for the further properties, of
    the start-up of the screen, of the settings screen
    (app/(tabs)/explore.tsx) and of the earlier revision of the map screen.

    Conventions of the embedding.
    - A JavaScript [number] is an exact rational extended with the three
      special values of IEEE arithmetic.  Comparison and [Math.min] only
      depend on the order of the values, so the rounding of a quotient to
      a double (which is monotone and fixes 0 and 1) is left out.  The
      bounds of the region gate, which coordinates are compared with, are
      the exact values of the doubles that their literals denote.
    - A file is the string of its bytes; the artifact store is a finite map
      from paths to files.  Decoding a file as UTF-8 is the identity on
      bytes: the patterns searched for are ASCII.
    - An [async] function is a computation over the component state that
      returns or throws and that emits the externally visible events it
      performs, in order.
    - The [const]s that a render of the component destructures from
      [useState] are fixed for the closures of that render: a setter changes
      the state cell, not the [const] a running closure has captured. *)

From Stdlib Require Import QArith Ascii.
From stdpp Require Import gmap strings list fin_maps.

Local Open Scope Z_scope.

(** ** Numbers *)

Module Number.

Inductive number : Type :=
| Fin (q : Q)
| PosInfinity
| NegInfinity
| NaN.

(** [a <= b]; every comparison with [NaN] is false. *)
Definition le (a b : number) : bool :=
  match a, b with
  | NaN, _ | _, NaN => false
  | NegInfinity, _ => true
  | _, PosInfinity => true
  | PosInfinity, _ => false
  | Fin _, NegInfinity => false
  | Fin p, Fin q => Qle_bool p q
  end.

(** [a >= b] *)
Definition ge (a b : number) : bool := le b a.

(** [w / e] for two integer-valued numbers (byte counts). *)
Definition div (w e : Z) : number :=
  match e with
  | Z0 => match w with
          | Z0 => NaN
          | Zpos _ => PosInfinity
          | Zneg _ => NegInfinity
          end
  | Zpos d => Fin (w # d)
  | Zneg d => Fin (- w # d)
  end.

(** [Math.min(a, b)] *)
Definition min (a b : number) : number :=
  match a, b with
  | NaN, _ | _, NaN => NaN
  | NegInfinity, _ | _, NegInfinity => NegInfinity
  | PosInfinity, x => x
  | x, PosInfinity => x
  | Fin p, Fin q => if Qle_bool p q then Fin p else Fin q
  end.

End Number.

Import Number.

(** ** Region gate *)

Record Coordinate := { latitude : Q; longitude : Q }.

Record Bounds := {
  minLat : Q;
  maxLat : Q;
  minLng : Q;
  maxLng : Q;
  center : Coordinate
}.

(** The literals of the source denote the doubles nearest to them; the
    bounds are the exact values of those doubles (binary fractions), so that
    the comparisons agree with the code on every double.  In the order of
    the fields the literals are 22.479910, 22.660090, 88.262718, 88.457282,
    22.57 and 88.36. *)
Definition KOLKATA_BOUNDS : Bounds := {|
  minLat := 6327532143707643 # 281474976710656;
  maxLat := 6378248305011369 # 281474976710656;
  minLng := 1552734155841825 # 17592186044416;
  maxLng := 6224627847709483 # 70368744177664;
  center := {| latitude := 3176445112179753 # 140737488355328;
               longitude := 6217782235538391 # 70368744177664 |}
|}.

Definition isLocationInBounds (lat lng : number) : bool :=
  ge lat (Fin (minLat KOLKATA_BOUNDS)) && le lat (Fin (maxLat KOLKATA_BOUNDS)) &&
  ge lng (Fin (minLng KOLKATA_BOUNDS)) && le lng (Fin (maxLng KOLKATA_BOUNDS)).

(** ** Strings *)

Module Text.

Definition quote : ascii := "034"%char.
Definition nul : string := String "000"%char EmptyString.
Definition newline : string := String "010"%char EmptyString.

(** [s.startsWith(p)] *)
Definition startsWith (s p : string) : bool := String.prefix p s.

(** [s.includes(p)] *)
Fixpoint includes (s p : string) : bool :=
  String.prefix p s ||
  match s with
  | EmptyString => false
  | String _ s' => includes s' p
  end.

(** The first [n] bytes of [s] (all of it when it is shorter). *)
Definition take (n : nat) (s : string) : string := String.substring 0 n s.

Fixpoint drop (n : nat) (s : string) : string :=
  match n, s with
  | O, _ => s
  | S _, EmptyString => EmptyString
  | S n', String _ s' => drop n' s'
  end.

(** The longest prefix of [s] without a double quote: what a greedy
    negated character class of the quote consumes. *)
Fixpoint upToQuote (s : string) : string :=
  match s with
  | EmptyString => EmptyString
  | String c s' => if Ascii.eqb c quote then EmptyString else String c (upToQuote s')
  end.

(** *** Base64 *)

Definition base64_alphabet : string :=
  "ABCDEFGHIJKLMNOPQRSTUVWXYZabcdefghijklmnopqrstuvwxyz0123456789+/".

Definition base64_digit (n : N) : ascii :=
  match String.get (N.to_nat n) base64_alphabet with
  | Some c => c
  | None => "="%char
  end.

Fixpoint base64 (s : string) : string :=
  match s with
  | EmptyString => EmptyString
  | String a EmptyString =>
      let x := N_of_ascii a in
      String (base64_digit (x / 4))
        (String (base64_digit (x mod 4 * 16)) "==")
  | String a (String b EmptyString) =>
      let x := N_of_ascii a in
      let y := N_of_ascii b in
      String (base64_digit (x / 4))
        (String (base64_digit (x mod 4 * 16 + y / 16))
           (String (base64_digit (y mod 16 * 4)) "="))
  | String a (String b (String c rest)) =>
      let x := N_of_ascii a in
      let y := N_of_ascii b in
      let z := N_of_ascii c in
      String (base64_digit (x / 4))
        (String (base64_digit (x mod 4 * 16 + y / 16))
           (String (base64_digit (y mod 16 * 4 + z / 64))
              (String (base64_digit (z mod 64)) (base64 rest))))
  end%N.

End Text.

Import Text.

(** ** Exceptions and the failure taxonomy *)

(** What a [catch] clause receives: an [Error] with its message, or some
    other thrown value. *)
Inductive Exception : Type :=
| Error (message : string)
| NotAnError.

#[global] Instance Exception_eq_dec : EqDecision Exception.
Proof. solve_decision. Defined.

(** The errors the pipeline throws itself. *)
Definition NoFileReceived : Exception :=
  Error "Download failed - no file received".
Definition LinkExtractionFailed : Exception :=
  Error "Failed to extract direct download link from Google Drive.".
Definition RetryNoFileReceived : Exception :=
  Error "Retry download failed - no file received".
Definition EmptyOrInvalid : Exception :=
  Error "Downloaded file is empty or invalid.".
Definition NotSQLite : Exception :=
  Error "Downloaded file is not a valid SQLite database (MBTiles file).".
Definition SaveFailed : Exception :=
  Error "Failed to save MBTiles file.".
Definition InvalidOrCorrupted : Exception :=
  Error "Downloaded file appears to be invalid or corrupted.".
Definition OpenFailed : Exception :=
  Error "Failed to open database".

(** The taxonomy of the specification. *)
Inductive PipelineError : Type :=
| TransferFailed
| RedirectExtractionFailed
| StillHtmlAfterRetry
| InvalidFormat
| InstallVerificationFailed
| DeleteFailed.

(** The taxonomy read onto the throw sites of the pipeline: each error the
    code constructs, with the category whose description it fits.  The
    empty-file error and the exceptions of the platform carry no category of
    their own. *)
Definition taxonomy (e : Exception) : option PipelineError :=
  if decide (e = NoFileReceived) then Some TransferFailed
  else if decide (e = RetryNoFileReceived) then Some TransferFailed
  else if decide (e = LinkExtractionFailed) then Some RedirectExtractionFailed
  else if decide (e = NotSQLite) then Some InvalidFormat
  else if decide (e = SaveFailed) then Some InstallVerificationFailed
  else if decide (e = InvalidOrCorrupted) then Some InstallVerificationFailed
  else None.


(** ** The platform *)

(** A settled promise of a platform call. *)
Inductive Settled (A : Type) : Type :=
| Fulfilled (a : A)
| Rejected (e : Exception).

Arguments Fulfilled {A} a.
Arguments Rejected {A} e.

(** An opened database, by what its read queries answer:
    the names in [sqlite_master], the row of [SELECT COUNT( * ) as count]
    for a table (possibly no row), the rows of [metadata], and whether
    [closeAsync] fails. *)
Record Database := {
  table_names : Settled (list string);
  count_rows : string -> Settled (option Z);
  metadata_rows : Settled (list (string * string));
  closeAsync_fault : option Exception
}.

Record DownloadProgressData := {
  totalBytesWritten : Z;
  totalBytesExpectedToWrite : Z
}.

(** How [downloadAsync] settles: with a result that carries a [uri], with
    no such result, or by rejecting. *)
Inductive Settlement : Type :=
| WithUri
| WithoutUri
| Fails (e : Exception).

(** One transfer as the remote host and the network drive it: the progress
    reports handed to the callback, the bytes left at the destination (if
    any) and the settlement. *)
Record Transfer := {
  reports : list DownloadProgressData;
  written : option string;
  settles : Settlement
}.

(** The collaborators of the component: storage root, transfer behaviour
    per URL, the database engine on the bytes of a file, and the faults of
    the file operations. *)
Record Platform := {
  documentDirectory : string;
  serve : string -> Transfer;
  openDatabaseAsync_on : string -> Settled (option Database);
  deleteAsync_fault : string -> option Exception;
  moveAsync_fault : string -> string -> option Exception;
  missing_file : string -> Exception
}.

(** ** Component state and events *)

Inductive Event : Type :=
| SetDownloading (b : bool)
| SetDownloadProgress (p : number)
| SetOfflineMapAvailable (b : bool)
| SetDb (d : option Database)
| ConsoleError (label : string) (e : Exception)
| Alert (title message : string)
| Download (url dest : string)
| Delete (path : string)
| Move (from to : string)
| Open (path : string)
| Close.

(** The artifact store and the state cells of the component. *)
Record State := {
  st_files : gmap string string;
  st_downloading : bool;
  st_downloadProgress : number;
  st_offlineMapAvailable : bool;
  st_db : option Database
}.

(** ** Computations *)

Inductive Outcome (A : Type) : Type :=
| Returned (a : A)
| Thrown (e : Exception).

Arguments Returned {A} a.
Arguments Thrown {A} e.

Record Run (A : Type) := {
  outcome : Outcome A;
  final : State;
  events : list Event
}.

Arguments Build_Run {A} _ _ _.
Arguments outcome {A} _.
Arguments final {A} _.
Arguments events {A} _.

Definition M (A : Type) : Type := State -> Run A.

Definition ret {A} (a : A) : M A :=
  fun st => Build_Run (Returned a) st [].

Definition bind {A B} (m : M A) (k : A -> M B) : M B :=
  fun st =>
    match m st with
    | Build_Run (Returned a) st1 t1 =>
        match k a st1 with
        | Build_Run o st2 t2 => Build_Run o st2 (t1 ++ t2)
        end
    | Build_Run (Thrown e) st1 t1 => Build_Run (Thrown e) st1 t1
    end.

#[global] Instance M_ret : MRet M := @ret.
#[global] Instance M_bind : MBind M := fun A B k m => bind m k.

Definition throw {A} (e : Exception) : M A :=
  fun st => Build_Run (Thrown e) st [].

Definition emit (e : Event) : M unit :=
  fun st => Build_Run (Returned tt) st [e].

(** [try { body } catch (error) { handler error }] *)
Definition try_catch {A} (body : M A) (handler : Exception -> M A) : M A :=
  fun st =>
    match body st with
    | Build_Run (Returned a) st1 t1 => Build_Run (Returned a) st1 t1
    | Build_Run (Thrown e) st1 t1 =>
        match handler e st1 with
        | Build_Run o st2 t2 => Build_Run o st2 (t1 ++ t2)
        end
    end.

(** [try { body } finally { finalizer }] *)
Definition try_finally {A} (body : M A) (finalizer : M unit) : M A :=
  fun st =>
    match body st with
    | Build_Run o st1 t1 =>
        match finalizer st1 with
        | Build_Run (Returned _) st2 t2 => Build_Run o st2 (t1 ++ t2)
        | Build_Run (Thrown e) st2 t2 => Build_Run (Thrown e) st2 (t1 ++ t2)
        end
    end.

Definition when (b : bool) (m : M unit) : M unit :=
  if b then m else ret tt.

Fixpoint forEach {A} (l : list A) (f : A -> M unit) : M unit :=
  match l with
  | [] => ret tt
  | x :: l' => f x ;; forEach l' f
  end.

(** *** State setters *)

Definition setDownloading (b : bool) : M unit :=
  fun st =>
    Build_Run (Returned tt)
      {| st_files := st_files st; st_downloading := b;
         st_downloadProgress := st_downloadProgress st;
         st_offlineMapAvailable := st_offlineMapAvailable st;
         st_db := st_db st |}
      [SetDownloading b].

Definition setDownloadProgress (p : number) : M unit :=
  fun st =>
    Build_Run (Returned tt)
      {| st_files := st_files st; st_downloading := st_downloading st;
         st_downloadProgress := p;
         st_offlineMapAvailable := st_offlineMapAvailable st;
         st_db := st_db st |}
      [SetDownloadProgress p].

Definition setOfflineMapAvailable (b : bool) : M unit :=
  fun st =>
    Build_Run (Returned tt)
      {| st_files := st_files st; st_downloading := st_downloading st;
         st_downloadProgress := st_downloadProgress st;
         st_offlineMapAvailable := b;
         st_db := st_db st |}
      [SetOfflineMapAvailable b].

Definition setDb (d : option Database) : M unit :=
  fun st =>
    Build_Run (Returned tt)
      {| st_files := st_files st; st_downloading := st_downloading st;
         st_downloadProgress := st_downloadProgress st;
         st_offlineMapAvailable := st_offlineMapAvailable st;
         st_db := d |}
      [SetDb d].

Definition setFiles (f : gmap string string) : M unit :=
  fun st =>
    Build_Run (Returned tt)
      {| st_files := f; st_downloading := st_downloading st;
         st_downloadProgress := st_downloadProgress st;
         st_offlineMapAvailable := st_offlineMapAvailable st;
         st_db := st_db st |}
      [].

Definition getFiles : M (gmap string string) :=
  fun st => Build_Run (Returned (st_files st)) st [].

(** ** File system, transfer and database calls *)

Record FileInfo := {
  exists_ : bool;
  size : option Z
}.

Inductive EncodingType : Type := UTF8 | Base64.

(** Truthiness of an optional number: [undefined] and [0] are falsy. *)
Definition truthy (n : option Z) : bool :=
  match n with
  | Some k => negb (k =? 0)
  | None => false
  end.

(** [n > 0] and [n === 0] on an optional number. *)
Definition gt0 (n : option Z) : bool :=
  match n with
  | Some k => 0 <? k
  | None => false
  end.

Definition is0 (n : option Z) : bool :=
  match n with
  | Some k => k =? 0
  | None => false
  end.

Section Calls.

Context (platform : Platform).

(** [FileSystem.getInfoAsync(path)] *)
Definition getInfoAsync (path : string) : M FileInfo :=
  files ← getFiles;
  match files !! path with
  | Some content =>
      mret {| exists_ := true; size := Some (Z.of_nat (String.length content)) |}
  | None => mret {| exists_ := false; size := None |}
  end.

(** [FileSystem.deleteAsync(path)] *)
Definition deleteAsync (path : string) : M unit :=
  emit (Delete path) ;;
  match deleteAsync_fault platform path with
  | Some e => throw e
  | None => files ← getFiles; setFiles (delete path files)
  end.

(** [FileSystem.moveAsync({ from, to })] *)
Definition moveAsync (from to : string) : M unit :=
  emit (Move from to) ;;
  match moveAsync_fault platform from to with
  | Some e => throw e
  | None =>
      files ← getFiles;
      match files !! from with
      | Some content => setFiles (<[to := content]> (delete from files))
      | None => throw (missing_file platform from)
      end
  end.

(** [FileSystem.readAsStringAsync(path, { encoding, length })]: the first
    [length] bytes of the file (all of them without [length]), as text or
    as Base64. *)
Definition readAsStringAsync
    (path : string) (encoding : EncodingType) (length : option nat) : M string :=
  files ← getFiles;
  match files !! path with
  | Some content =>
      let bytes := match length with
                   | Some n => take n content
                   | None => content
                   end in
      mret (match encoding with
            | UTF8 => bytes
            | Base64 => base64 bytes
            end)
  | None => throw (missing_file platform path)
  end.

(** [FileSystem.createDownloadResumable(url, dest, {}, callback).downloadAsync()]:
    the [uri] of the result, when there is one, is the destination. *)
Definition downloadAsync
    (url dest : string) (callback : DownloadProgressData -> M unit)
  : M (option string) :=
  let transfer := serve platform url in
  emit (Download url dest) ;;
  forEach (reports transfer) callback ;;
  match written transfer with
  | Some content => files ← getFiles; setFiles (<[dest := content]> files)
  | None => mret tt
  end ;;
  match settles transfer with
  | WithUri => mret (Some dest)
  | WithoutUri => mret None
  | Fails e => throw e
  end.

(** [SQLite.openDatabaseAsync(path)] *)
Definition openDatabaseAsync (path : string) : M (option Database) :=
  emit (Open path) ;;
  files ← getFiles;
  match files !! path with
  | Some content =>
      match openDatabaseAsync_on platform content with
      | Fulfilled d => mret d
      | Rejected e => throw e
      end
  | None => throw (missing_file platform path)
  end.

(** A query of an opened database. *)
Definition query {A} (answer : Settled A) : M A :=
  match answer with
  | Fulfilled a => mret a
  | Rejected e => throw e
  end.

(** [database.closeAsync()] *)
Definition closeAsync (database : Database) : M unit :=
  emit Close ;;
  match closeAsync_fault database with
  | Some e => throw e
  | None => mret tt
  end.

End Calls.

(** ** The component *)

Definition GITHUB_RELEASE_URL : string :=
  "https://drive.google.com/uc?export=download&id=1KghfVnf3KPPnvpOtqJCNXnHdGZC9BNj1&confirm=t".

(** The regular expression of [extractDirectDownloadLink] is the literal
    [uc?export=download&confirm=] followed by one or more bytes other than
    a double quote, taken greedily.  [matchHere s] is its match at the head
    of [s]. *)
Definition confirmLiteral : string := "uc?export=download&confirm=".

Definition matchHere (s : string) : option string :=
  if String.prefix confirmLiteral s then
    match upToQuote (drop (String.length confirmLiteral) s) with
    | EmptyString => None
    | token => Some (confirmLiteral +:+ token)
    end
  else None.

(** [s.match(...)] for that expression, reduced to element 0 of the
    result: the leftmost match. *)
Fixpoint regexMatch (s : string) : option string :=
  match matchHere s with
  | Some m => Some m
  | None =>
      match s with
      | EmptyString => None
      | String _ s' => regexMatch s'
      end
  end.

Definition extractDirectDownloadLink (html : string) : option string :=
  match regexMatch html with
  | Some m => Some ("https://drive.google.com/" +:+ m)
  | None => None
  end.

Section MapScreen.

Context (platform : Platform).

(** The consts of the render whose closures run. *)
Context (offlineMapAvailable : bool) (db : option Database).

Definition mbtilesPath : string :=
  documentDirectory platform +:+ "kolkata_10km.mbtiles".

Definition tempDownloadPath : string :=
  documentDirectory platform +:+ "kolkata_10km_download.mbtiles".

Definition isTilesTable (name : string) : bool :=
  bool_decide (name = "tiles") || bool_decide (name = "tile").

Definition initializeDatabase_try : M unit :=
  fileInfo ← getInfoAsync mbtilesPath;
  if negb (exists_ fileInfo) then
    setOfflineMapAvailable false
  else
    opened ← openDatabaseAsync platform mbtilesPath;
    match opened with
    | None => throw OpenFailed
    | Some database =>
        setDb (Some database) ;;
        tables ← query (table_names database);
        match find isTilesTable tables with
        | Some tilesTable => _ ← query (count_rows database tilesTable); mret tt
        | None => mret tt
        end ;;
        match find (fun name => bool_decide (name = "metadata")) tables with
        | Some _ => _ ← query (metadata_rows database); mret tt
        | None => mret tt
        end
    end.

Definition initializeDatabase : M unit :=
  try_catch initializeDatabase_try
    (fun error =>
       emit (ConsoleError "Error initializing MBTiles database:" error) ;;
       setOfflineMapAvailable false ;;
       setDb None).

Definition checkOfflineMapAvailability : M unit :=
  try_catch
    (fileInfo ← getInfoAsync mbtilesPath;
     if exists_ fileInfo && truthy (size fileInfo) && gt0 (size fileInfo) then
       setOfflineMapAvailable true ;;
       initializeDatabase
     else
       setOfflineMapAvailable false)
    (fun error =>
       emit (ConsoleError "Error checking offline map:" error) ;;
       setOfflineMapAvailable false).

Definition isValidSQLiteDatabase (filePath : string) : M bool :=
  try_catch
    (header ← readAsStringAsync platform filePath Base64 (Some 16%nat);
     mret (startsWith header "U1RGRnRt"))
    (fun error =>
       emit (ConsoleError "Error checking SQLite header:" error) ;;
       mret false).

Definition processDownloadedFile_try (filePath : string) : M unit :=
  fileInfo ← getInfoAsync filePath;
  if negb (exists_ fileInfo) || negb (truthy (size fileInfo)) || is0 (size fileInfo) then
    throw EmptyOrInvalid
  else
    isValid ← isValidSQLiteDatabase filePath;
    if negb isValid then throw NotSQLite
    else
      existingFile ← getInfoAsync mbtilesPath;
      when (exists_ existingFile) (deleteAsync platform mbtilesPath) ;;
      moveAsync platform filePath mbtilesPath ;;
      verifyInfo ← getInfoAsync mbtilesPath;
      if negb (exists_ verifyInfo) || is0 (size verifyInfo) then
        throw SaveFailed
      else
        setDownloadProgress (Fin 1) ;;
        checkOfflineMapAvailability ;;
        if offlineMapAvailable then
          emit (Alert "Success!" "Offline map downloaded and installed successfully!")
        else
          throw InvalidOrCorrupted.

Definition processingErrorMessage (error : Exception) : string :=
  "Failed to process the downloaded map." +:+
  match error with
  | Error message =>
      if includes message "empty" then
        newline +:+ "The downloaded file is empty."
      else if includes message "valid SQLite" then
        newline +:+ "The downloaded file is not a valid MBTiles file."
      else if includes message "corrupted" then
        newline +:+ "The downloaded file is corrupted."
      else EmptyString
  | NotAnError => EmptyString
  end.

Definition processDownloadedFile_cleanup : M unit :=
  try_catch
    (badFile ← getInfoAsync mbtilesPath;
     when (exists_ badFile) (deleteAsync platform mbtilesPath))
    (fun cleanupError => emit (ConsoleError "Cleanup failed:" cleanupError)).

Definition processDownloadedFile (filePath : string) : M unit :=
  try_catch (processDownloadedFile_try filePath)
    (fun error =>
       emit (ConsoleError "Processing failed:" error) ;;
       emit (Alert "Processing Failed" (processingErrorMessage error)) ;;
       processDownloadedFile_cleanup).

(** The progress callback of both transfers. *)
Definition onDownloadProgress (downloadProgress : DownloadProgressData) : M unit :=
  let progress :=
    div (totalBytesWritten downloadProgress)
        (totalBytesExpectedToWrite downloadProgress) in
  setDownloadProgress (min progress (Fin (9 # 10))).

Definition startDownload_try : M unit :=
  existingTempFile ← getInfoAsync tempDownloadPath;
  when (exists_ existingTempFile) (deleteAsync platform tempDownloadPath) ;;
  result ← downloadAsync platform GITHUB_RELEASE_URL tempDownloadPath onDownloadProgress;
  match result with
  | None => throw NoFileReceived
  | Some uri =>
      firstBytes ← readAsStringAsync platform uri UTF8 (Some 100%nat);
      if includes firstBytes "<!DOCTYPE html>" then
        html ← readAsStringAsync platform uri UTF8 None;
        match extractDirectDownloadLink html with
        | None => throw LinkExtractionFailed
        | Some directDownloadLink =>
            retryResult ← downloadAsync platform directDownloadLink tempDownloadPath
                            onDownloadProgress;
            match retryResult with
            | None => throw RetryNoFileReceived
            | Some retryUri => processDownloadedFile retryUri
            end
        end
      else
        processDownloadedFile uri
  end.

Definition downloadErrorMessage (error : Exception) : string :=
  "Failed to download offline map." +:+
  match error with
  | Error message =>
      if includes message "Network" then " Please check your internet connection."
      else if includes message "404" then " The map file was not found."
      else if includes message "HTML" then
        " Google Drive returned an HTML page instead of the file."
      else " " +:+ message
  | NotAnError => EmptyString
  end.

Definition startDownload : M unit :=
  setDownloading true ;;
  setDownloadProgress (Fin 0) ;;
  try_finally
    (try_catch startDownload_try
       (fun error =>
          emit (ConsoleError "Download failed:" error) ;;
          emit (Alert "Download Failed" (downloadErrorMessage error))))
    (setDownloading false ;;
     setDownloadProgress (Fin 0)).

(** The handler of the Delete button of the confirmation dialog of
    [deleteOfflineMap]. *)
Definition deleteOfflineMap_onPress : M unit :=
  try_catch
    (match db with
     | Some database => closeAsync database ;; setDb None
     | None => mret tt
     end ;;
     fileInfo ← getInfoAsync mbtilesPath;
     when (exists_ fileInfo) (deleteAsync platform mbtilesPath) ;;
     setOfflineMapAvailable false ;;
     emit (Alert "Success" "Offline map deleted successfully"))
    (fun error =>
       emit (ConsoleError "Error deleting offline map:" error) ;;
       emit (Alert "Error" "Failed to delete offline map")).

Definition deleteOfflineMap : M unit :=
  emit (Alert "Confirm Delete"
          "Are you sure you want to delete the offline map? This will free up storage space but you'll need internet to view detailed maps.").

End MapScreen.

(** ** The operations of the specification *)

(** [fetchAndInstall]: [startDownload] as the Download button runs it, from
    the closures of the render that shows the current state. *)
Definition fetchAndInstall (platform : Platform) (st : State) : Run unit :=
  startDownload platform (st_offlineMapAvailable st) st.

(** [isAvailable()]: the availability that [checkOfflineMapAvailability]
    leaves in the state. *)
Definition isAvailable (platform : Platform) (st : State) : bool :=
  st_offlineMapAvailable (final (checkOfflineMapAvailability platform st)).

(** [deletePackage()]: the confirmed delete, from the closures of the render
    that shows the current state. *)
Definition deletePackage (platform : Platform) (st : State) : Run unit :=
  deleteOfflineMap_onPress platform (st_db st) st.

(** ** Reading a trace *)

Definition progress_of (t : list Event) : list number :=
  omap (fun e => match e with SetDownloadProgress p => Some p | _ => None end) t.

Definition transfers_of (t : list Event) : list (string * string) :=
  omap (fun e => match e with Download url dest => Some (url, dest) | _ => None end) t.

Definition alerts_of (t : list Event) : list (string * string) :=
  omap (fun e => match e with Alert title message => Some (title, message) | _ => None end) t.

(** The file operations and the database close, in order. *)
Definition isStoreCall (e : Event) : bool :=
  match e with
  | Delete _ | Move _ _ | Close | Download _ _ => true
  | _ => false
  end.

Definition store_calls_of (t : list Event) : list Event :=
  omap (fun e => if isStoreCall e then Some e else None) t.

(** The exceptions that reached the [catch] of [startDownload] or of
    [processDownloadedFile]: the failures of an invocation. *)
Definition failures_of (t : list Event) : list Exception :=
  omap (fun e =>
          match e with
          | ConsoleError label error =>
              if bool_decide (label = "Download failed:")
                 || bool_decide (label = "Processing failed:")
              then Some error else None
          | _ => None
          end) t.

Arguments progress_of : simpl never.
Arguments transfers_of : simpl never.
Arguments alerts_of : simpl never.
Arguments store_calls_of : simpl never.
Arguments failures_of : simpl never.

Definition fails_with (k : PipelineError) (r : Run unit) : Prop :=
  exists e, e ∈ failures_of (events r) /\ taxonomy e = Some k.

Definition successAlert : string * string :=
  ("Success!", "Offline map downloaded and installed successfully!").

(** The success path was taken. *)
Definition succeeded (r : Run unit) : Prop :=
  successAlert ∈ alerts_of (events r).

Definition failed (r : Run unit) : Prop :=
  failures_of (events r) <> [].

(** The install was carried through: the progress 1.0 was reported, which
    [processDownloadedFile] does once the file has passed the checks, has
    been moved to the canonical path and has been verified there. *)
Definition completed (r : Run unit) : Prop :=
  Fin 1 ∈ progress_of (events r).


(** ** Fixtures *)

Definition SQLITE_SIGNATURE : string := "SQLite format 3" +:+ nul.

Definition emptyState : State := {|
  st_files := ∅;
  st_downloading := false;
  st_downloadProgress := Fin 0;
  st_offlineMapAvailable := false;
  st_db := None
|}.

(** A database with the tables of an MBTiles file. *)
Definition tilesDatabase : Database := {|
  table_names := Fulfilled ["metadata"; "tiles"];
  count_rows := fun _ => Fulfilled (Some 42);
  metadata_rows := Fulfilled [("name", "kolkata")];
  closeAsync_fault := None
|}.

(** A database without any table. *)
Definition blankDatabase : Database := {|
  table_names := Fulfilled [];
  count_rows := fun _ => Rejected (Error "no such table");
  metadata_rows := Rejected (Error "no such table");
  closeAsync_fault := None
|}.

Definition report (w e : Z) : DownloadProgressData :=
  {| totalBytesWritten := w; totalBytesExpectedToWrite := e |}.

(** A platform without faults whose host serves [first] at the release URL
    and [second] everywhere else, and whose engine opens every file as
    [database]. *)
Definition fakePlatform (first second : Transfer) (database : Database) : Platform := {|
  documentDirectory := "file:///data/";
  serve := fun url => if bool_decide (url = GITHUB_RELEASE_URL) then first else second;
  openDatabaseAsync_on := fun _ => Fulfilled (Some database);
  deleteAsync_fault := fun _ => None;
  moveAsync_fault := fun _ _ => None;
  missing_file := fun _ => Error "File does not exist"
|}.

Definition delivers (content : string) : Transfer := {|
  reports := [report 50 100; report 100 100];
  written := Some content;
  settles := WithUri
|}.

Definition sqliteFile : string := SQLITE_SIGNATURE +:+ "payload".
Definition acceptedFile : string := "STFFtm-payload".
Definition zeroFile : string :=
  nul +:+ nul +:+ nul +:+ nul +:+ nul +:+ nul +:+ nul +:+ nul +:+
  nul +:+ nul +:+ nul +:+ nul +:+ nul +:+ nul +:+ nul +:+ nul.
Definition confirmPage : string :=
  "<!DOCTYPE html><html><a href=" +:+ String quote
    ("/uc?export=download&confirm=XYZ" +:+ String quote "></a></html>").
Definition plainPage : string := "<!DOCTYPE html><html>quota exceeded</html>".

(** A state with [content] installed as the package, as a render shows it
    once the availability check has run. *)
Definition installedState (content : string) : State := {|
  st_files := {[ "file:///data/kolkata_10km.mbtiles" := content ]};
  st_downloading := false;
  st_downloadProgress := Fin 0;
  st_offlineMapAvailable := true;
  st_db := Some tilesDatabase
|}.

(** A store that holds a package while the flag is still false and no
    database is open, as the screen shows it after a start until the
    availability check has settled. *)
Definition uncheckedState (content : string) : State := {|
  st_files := {[ "file:///data/kolkata_10km.mbtiles" := content ]};
  st_downloading := false;
  st_downloadProgress := Fin 0;
  st_offlineMapAvailable := false;
  st_db := None
|}.

(** The part of [startDownload_try] that precedes the hand-over to
    [processDownloadedFile]: it returns the path that is processed. *)
Definition startDownload_acquire (platform : Platform) : M string :=
  existingTempFile ← getInfoAsync (tempDownloadPath platform);
  when (exists_ existingTempFile) (deleteAsync platform (tempDownloadPath platform)) ;;
  result ← downloadAsync platform GITHUB_RELEASE_URL (tempDownloadPath platform)
             onDownloadProgress;
  match result with
  | None => throw NoFileReceived
  | Some uri =>
      firstBytes ← readAsStringAsync platform uri UTF8 (Some 100%nat);
      if includes firstBytes "<!DOCTYPE html>" then
        html ← readAsStringAsync platform uri UTF8 None;
        match extractDirectDownloadLink html with
        | None => throw LinkExtractionFailed
        | Some directDownloadLink =>
            retryResult ← downloadAsync platform directDownloadLink
                            (tempDownloadPath platform) onDownloadProgress;
            match retryResult with
            | None => throw RetryNoFileReceived
            | Some retryUri => mret retryUri
            end
        end
      else
        mret uri
  end.

(** The value a progress report puts on display. *)
Definition shown (d : DownloadProgressData) : number :=
  min (div (totalBytesWritten d) (totalBytesExpectedToWrite d)) (Fin (9 # 10)).

(** The state after a transfer has handed [l] to the progress callback. *)
Definition afterReports (l : list DownloadProgressData) (st : State) : State :=
  match last l with
  | Some d =>
      {| st_files := st_files st; st_downloading := st_downloading st;
         st_downloadProgress := shown d;
         st_offlineMapAvailable := st_offlineMapAvailable st;
         st_db := st_db st |}
  | None => st
  end.

(** The state with the download flag and the progress set. *)
Definition withDownload (flag : bool) (p : number) (st : State) : State :=
  {| st_files := st_files st; st_downloading := flag;
     st_downloadProgress := p;
     st_offlineMapAvailable := st_offlineMapAvailable st;
     st_db := st_db st |}.



(** A platform like [fakePlatform] on which deleting the file [locked]
    fails. *)
Definition lockedPlatform (first : Transfer) (database : Database) (locked : string)
  : Platform := {|
  documentDirectory := "file:///data/";
  serve := fun _ => first;
  openDatabaseAsync_on := fun _ => Fulfilled (Some database);
  deleteAsync_fault :=
    fun path => if bool_decide (path = locked) then Some (Error "file is locked") else None;
  moveAsync_fault := fun _ _ => None;
  missing_file := fun _ => Error "File does not exist"
|}.

(** A database whose handle cannot be closed. *)
Definition busyDatabase : Database := {|
  table_names := Fulfilled ["metadata"; "tiles"];
  count_rows := fun _ => Fulfilled (Some 42);
  metadata_rows := Fulfilled [("name", "kolkata")];
  closeAsync_fault := Some (Error "database is busy")
|}.

(** A state with a stale provisional file and no package. *)
Definition staleState (stale : string) : State := {|
  st_files := {[ "file:///data/kolkata_10km_download.mbtiles" := stale ]};
  st_downloading := false;
  st_downloadProgress := Fin 0;
  st_offlineMapAvailable := false;
  st_db := None
|}.

(** ** The screen around the pipeline: location and start-up *)

Module Region.

Record LocationState := {
  latitude : number;
  longitude : number;
  latitudeDelta : number;
  longitudeDelta : number
}.

End Region.

(** The location collaborator: how the permission request and the position
    request settle (the status, the coordinates). *)
Record LocationService := {
  requestForegroundPermissionsAsync : Settled string;
  getCurrentPositionAsync : Settled (number * number)
}.

(** The component state of the pipeline together with the location
    cells. *)
Record Screen := {
  sc_core : State;
  sc_location : option Region.LocationState;
  sc_locationPermission : string;
  sc_mapError : option string
}.

Inductive ScreenEvent : Type :=
| Core (e : Event)
| SetLocation (l : Region.LocationState)
| SetLocationPermission (status : string)
| SetMapError (message : option string).

Record ScreenRun (A : Type) := {
  s_outcome : Outcome A;
  s_final : Screen;
  s_events : list ScreenEvent
}.

Arguments Build_ScreenRun {A} _ _ _.
Arguments s_outcome {A} _.
Arguments s_final {A} _.
Arguments s_events {A} _.

Definition SM (A : Type) : Type := Screen -> ScreenRun A.

Definition sret {A} (a : A) : SM A :=
  fun sc => Build_ScreenRun (Returned a) sc [].

Definition sbind {A B} (m : SM A) (k : A -> SM B) : SM B :=
  fun sc =>
    match m sc with
    | Build_ScreenRun (Returned a) sc1 t1 =>
        match k a sc1 with
        | Build_ScreenRun o sc2 t2 => Build_ScreenRun o sc2 (t1 ++ t2)
        end
    | Build_ScreenRun (Thrown e) sc1 t1 => Build_ScreenRun (Thrown e) sc1 t1
    end.

#[global] Instance SM_ret : MRet SM := @sret.
#[global] Instance SM_bind : MBind SM := fun A B k m => sbind m k.

Definition semit (e : ScreenEvent) : SM unit :=
  fun sc => Build_ScreenRun (Returned tt) sc [e].

Definition stry_catch {A} (body : SM A) (handler : Exception -> SM A) : SM A :=
  fun sc =>
    match body sc with
    | Build_ScreenRun (Returned a) sc1 t1 => Build_ScreenRun (Returned a) sc1 t1
    | Build_ScreenRun (Thrown e) sc1 t1 =>
        match handler e sc1 with
        | Build_ScreenRun o sc2 t2 => Build_ScreenRun o sc2 (t1 ++ t2)
        end
    end.

(** A computation of the pipeline, run inside the screen. *)
Definition lift {A} (m : M A) : SM A :=
  fun sc =>
    match m (sc_core sc) with
    | Build_Run o st t =>
        Build_ScreenRun o
          {| sc_core := st; sc_location := sc_location sc;
             sc_locationPermission := sc_locationPermission sc;
             sc_mapError := sc_mapError sc |}
          (map Core t)
    end.

(** Awaiting a call of the location collaborator. *)
Definition await {A} (answer : Settled A) : SM A :=
  fun sc =>
    match answer with
    | Fulfilled a => Build_ScreenRun (Returned a) sc []
    | Rejected e => Build_ScreenRun (Thrown e) sc []
    end.

Definition setLocation (l : Region.LocationState) : SM unit :=
  fun sc =>
    Build_ScreenRun (Returned tt)
      {| sc_core := sc_core sc; sc_location := Some l;
         sc_locationPermission := sc_locationPermission sc;
         sc_mapError := sc_mapError sc |}
      [SetLocation l].

Definition setLocationPermission (status : string) : SM unit :=
  fun sc =>
    Build_ScreenRun (Returned tt)
      {| sc_core := sc_core sc; sc_location := sc_location sc;
         sc_locationPermission := status;
         sc_mapError := sc_mapError sc |}
      [SetLocationPermission status].

Definition setMapError (message : option string) : SM unit :=
  fun sc =>
    Build_ScreenRun (Returned tt)
      {| sc_core := sc_core sc; sc_location := sc_location sc;
         sc_locationPermission := sc_locationPermission sc;
         sc_mapError := message |}
      [SetMapError message].

(** The region centred on Kolkata with the given deltas. *)
Definition kolkataRegion (delta : Q) : Region.LocationState := {|
  Region.latitude := Fin (latitude (center KOLKATA_BOUNDS));
  Region.longitude := Fin (longitude (center KOLKATA_BOUNDS));
  Region.latitudeDelta := Fin delta;
  Region.longitudeDelta := Fin delta
|}.

Section Startup.

Context (platform : Platform) (service : LocationService).

Definition getCurrentLocation : SM unit :=
  stry_catch
    ('(lat, lng) ← await (getCurrentPositionAsync service);
     setLocation {| Region.latitude := lat; Region.longitude := lng;
                    Region.latitudeDelta := Fin (1 # 100);
                    Region.longitudeDelta := Fin (1 # 100) |})
    (fun error =>
       semit (Core (ConsoleError "Error getting location:" error)) ;;
       setLocation (kolkataRegion (5 # 100))).

Definition initializeApp : SM unit :=
  stry_catch
    (status ← await (requestForegroundPermissionsAsync service);
     setLocationPermission status ;;
     (if bool_decide (status = "granted") then getCurrentLocation
      else setLocation (kolkataRegion (5 # 100))) ;;
     lift (checkOfflineMapAvailability platform))
    (fun error =>
       semit (Core (ConsoleError "Error initializing app:" error)) ;;
       setMapError (Some "Failed to initialize app") ;;
       setLocation (kolkataRegion (5 # 100))).

End Startup.

(** ** The settings screen *)

(** [s.endsWith(p)] *)
Fixpoint endsWith (s p : string) : bool :=
  bool_decide (s = p) ||
  match s with
  | EmptyString => false
  | String _ s' => endsWith s' p
  end.

(** What the settings screen needs besides the platform: the names that
    [readDirectoryAsync] lists for a store, and the text of
    [(bytes / 1024 / 1024).toFixed(2)]. *)
Record SettingsHost := {
  readDirectoryAsync_of : gmap string string -> Settled (list string);
  megabytes : Z -> string
}.

(** The size of a file that exists. *)
Definition sizeOf (info : FileInfo) : Z := default 0 (size info).

Section SettingsScreen.

Context (platform : Platform) (host : SettingsHost).

Definition checkStorageUsage : M unit :=
  try_catch
    (let mbtilesPath := documentDirectory platform +:+ "kolkata_10km.mbtiles" in
     let dbPath := documentDirectory platform +:+ "kolkata_map.db" in
     mbtilesInfo ← getInfoAsync mbtilesPath;
     let totalSize1 := if exists_ mbtilesInfo then 0 + sizeOf mbtilesInfo else 0 in
     let fileDetails1 :=
       if exists_ mbtilesInfo
       then "MBTiles: " +:+ megabytes host (sizeOf mbtilesInfo) +:+ " MB" +:+ newline
       else EmptyString in
     dbInfo ← getInfoAsync dbPath;
     let totalSize := if exists_ dbInfo then totalSize1 + sizeOf dbInfo else totalSize1 in
     let fileDetails :=
       if exists_ dbInfo
       then fileDetails1 +:+ "Database: " +:+ megabytes host (sizeOf dbInfo) +:+ " MB" +:+ newline
       else fileDetails1 in
     if totalSize =? 0 then
       emit (Alert "Storage Usage" "No offline maps are currently stored.")
     else
       emit (Alert "Storage Usage"
               ("Total storage used: " +:+ megabytes host totalSize +:+ " MB" +:+
                newline +:+ newline +:+ fileDetails)))
    (fun error => emit (Alert "Error" "Could not check storage usage")).

(** [FileSystem.readDirectoryAsync(directory)] *)
Definition readDirectoryAsync : M (list string) :=
  files ← getFiles;
  query (readDirectoryAsync_of host files).

(** The filter of [clearCache]. *)
Definition isTemporary (file : string) : bool :=
  endsWith file ".zip" || endsWith file ".tmp" || includes file "temp".

(** The handler of the Clear button of the dialog of [clearCache];
    [deleteAsync] is called with [idempotent: true]. *)
Definition clearCache_onPress : M unit :=
  try_catch
    (tempFiles ← readDirectoryAsync;
     let filesToDelete := List.filter isTemporary tempFiles in
     forEach filesToDelete
       (fun file => deleteAsync platform (documentDirectory platform +:+ file)) ;;
     emit (Alert "Success" "Cache cleared successfully"))
    (fun error => emit (Alert "Error" "Could not clear cache")).

End SettingsScreen.

(** A host whose directory listing is [names]. *)
Definition listingHost (names : list string) : SettingsHost := {|
  readDirectoryAsync_of := fun _ => Fulfilled names;
  megabytes := fun _ => "0.00"
|}.

(** A store that holds an installed package beside a left-over archive. *)
Definition clutteredState : State := {|
  st_files := {[ "file:///data/kolkata_10km.mbtiles" := sqliteFile;
                 "file:///data/kolkata_map.zip" := plainPage ]};
  st_downloading := false;
  st_downloadProgress := Fin 0;
  st_offlineMapAvailable := true;
  st_db := Some tilesDatabase
|}.

(** ** The earlier revision of the map screen *)

Module Legacy.

Definition GITHUB_RELEASE_URL : string :=
  "https://github.com/user-attachments/files/21995160/kolkata_10km.zip".

Definition MAP_DATABASE_NAME : string := "kolkata_map.db".

(** What reading [error.message] does for a caught value that is not an
    [Error]: it gives the text that the value contributes to a template
    string, or, for [null] and [undefined], it throws a TypeError with the
    given message. *)
Inductive MessageRead : Type :=
| Reads (text : string)
| Throws (message : string).

(** What this revision asks of the platform beyond [Platform]: the faults
    of [copyAsync], how opening a database by its name settles for a store,
    and what the thrown value that is not an [Error] is like. *)
Record Host := {
  copyAsync_fault : string -> string -> option Exception;
  openDatabaseAsync_named : gmap string string -> string -> Settled Database;
  message_of_other : MessageRead
}.

(** The buttons of the Location Notice dialog. *)
Inductive Button : Type :=
| CancelButton
| DownloadButton.

(** The fraction that the progress callback computes from a report. *)
Definition reported (downloadProgress : DownloadProgressData) : number :=
  div (totalBytesWritten downloadProgress)
      (totalBytesExpectedToWrite downloadProgress).

Section LegacyScreen.

Context (platform : Platform) (host : Host).

(** The consts of the render whose closures run. *)
Context (downloading : bool) (location : option Region.LocationState).

Definition mbtilesPath : string :=
  documentDirectory platform +:+ "kolkata_10km.mbtiles".

Definition dbPath : string :=
  documentDirectory platform +:+ MAP_DATABASE_NAME.

Definition zipPath : string :=
  documentDirectory platform +:+ "kolkata_map.zip".

(** [error.message], read without a guard inside a [catch]. *)
Definition readMessage (error : Exception) : M string :=
  match error with
  | Error message => mret message
  | NotAnError =>
      match message_of_other host with
      | Reads text => mret text
      | Throws message => throw (Error message)
      end
  end.

(** [FileSystem.deleteAsync(path)] without [idempotent]: a missing file is
    an error. *)
Definition deleteAsync_strict (path : string) : M unit :=
  emit (Delete path) ;;
  match deleteAsync_fault platform path with
  | Some e => throw e
  | None =>
      files ← getFiles;
      match files !! path with
      | Some _ => setFiles (delete path files)
      | None => throw (missing_file platform path)
      end
  end.

(** [FileSystem.copyAsync({ from, to })] *)
Definition copyAsync (from to : string) : M unit :=
  match copyAsync_fault host from to with
  | Some e => throw e
  | None =>
      files ← getFiles;
      match files !! from with
      | Some content => setFiles (<[to := content]> files)
      | None => throw (missing_file platform from)
      end
  end.

(** [SQLite.openDatabaseAsync(name)] *)
Definition openDatabaseAsync (name : string) : M Database :=
  emit (Open name) ;;
  files ← getFiles;
  query (openDatabaseAsync_named host files name).

Definition initializeDatabase : M unit :=
  try_catch
    (dbExists ← getInfoAsync dbPath;
     when (negb (exists_ dbExists)) (copyAsync mbtilesPath dbPath) ;;
     database ← openDatabaseAsync MAP_DATABASE_NAME;
     setDb (Some database) ;;
     _ ← query (count_rows database "tiles");
     mret tt)
    (fun error => emit (ConsoleError "Error initializing database:" error)).

Definition checkOfflineMapAvailability : M unit :=
  try_catch
    (fileInfo ← getInfoAsync mbtilesPath;
     if exists_ fileInfo && gt0 (size fileInfo) then
       setOfflineMapAvailable true ;;
       initializeDatabase
     else
       mret tt)
    (fun error => emit (ConsoleError "Error checking offline map:" error)).

Definition processDownloadedFile (filePath : string) : M unit :=
  try_catch
    (fileInfo ← getInfoAsync filePath;
     moveAsync platform filePath mbtilesPath ;;
     verifyInfo ← getInfoAsync mbtilesPath;
     if negb (exists_ verifyInfo) || is0 (size verifyInfo) then
       throw (Error "Failed to save map file")
     else
       checkOfflineMapAvailability ;;
       emit (Alert "Success!"
               "Offline map downloaded successfully! You can now use maps even without internet connection."))
    (fun error =>
       emit (ConsoleError "Processing failed:" error) ;;
       message ← readMessage error;
       emit (Alert "Error" ("Failed to process downloaded map: " +:+ message))).

(** The progress callback of the transfer. *)
Definition onDownloadProgress (downloadProgress : DownloadProgressData) : M unit :=
  let progress :=
    div (totalBytesWritten downloadProgress)
        (totalBytesExpectedToWrite downloadProgress) in
  setDownloadProgress progress.

Definition startDownload : M unit :=
  setDownloading true ;;
  setDownloadProgress (Fin 0) ;;
  try_finally
    (try_catch
       (existingFile ← getInfoAsync zipPath;
        when (exists_ existingFile) (deleteAsync_strict zipPath) ;;
        result ← downloadAsync platform GITHUB_RELEASE_URL zipPath onDownloadProgress;
        match result with
        | Some uri => processDownloadedFile uri
        | None => throw (Error "Download failed - no file received")
        end)
       (fun error =>
          emit (ConsoleError "Download failed:" error) ;;
          message ← readMessage error;
          emit (Alert "Download Failed"
                  ("Failed to download offline map: " +:+ message +:+
                   newline +:+ newline +:+
                   "Please check your internet connection and try again."))))
    (setDownloading false).

(** The handlers of the two buttons of the Location Notice dialog: each
    assigns the local [shouldDownload] of a call that has returned. *)
Definition locationNotice_onPress (button : Button) : M unit :=
  mret tt.

Definition outsideCoverage : bool :=
  match location with
  | Some l => negb (isLocationInBounds (Region.latitude l) (Region.longitude l))
  | None => false
  end.

Definition downloadOfflineMap : M unit :=
  if downloading then mret tt
  else
    let shouldDownload := true in
    if outsideCoverage then
      emit (Alert "Location Notice"
              "This offline map is optimized for Kolkata area (10km radius). Your current location appears to be outside this area. Download anyway?")
    else
      when shouldDownload startDownload.

(** The handler of the Delete button of the confirmation dialog of
    [deleteOfflineMap]; both deletes are called with [idempotent: true]. *)
Definition deleteOfflineMap_onPress : M unit :=
  try_catch
    (deleteAsync platform mbtilesPath ;;
     deleteAsync platform dbPath ;;
     setOfflineMapAvailable false ;;
     setDb None ;;
     emit (Alert "Success" "Offline map deleted successfully"))
    (fun error =>
       emit (ConsoleError "Error deleting offline map:" error) ;;
       emit (Alert "Error" "Failed to delete offline map")).

End LegacyScreen.

(** A host without faults that opens every name as [database], and whose
    other thrown value is [undefined]. *)
Definition fakeHost (database : Database) : Host := {|
  copyAsync_fault := fun _ _ => None;
  openDatabaseAsync_named := fun _ _ => Fulfilled database;
  message_of_other := Throws "Cannot read property 'message' of undefined"
|}.

End Legacy.

(** * Properties *)

(** ** Tactics for running a computation symbolically *)

Ltac unfold_m :=
  unfold mbind, M_bind, mret, M_ret, bind, ret, throw, emit, try_catch,
    try_finally, when, query, getFiles, setFiles, setDb,
    setOfflineMapAvailable, setDownloadProgress, setDownloading in *.

(** Case analysis on a scrutinee that contains no other case analysis. *)
Ltac inner_case :=
  match goal with
  | |- context [match ?x with _ => _ end] =>
      lazymatch x with
      | context [match _ with _ => _ end] => fail
      | _ => destruct x eqn:?
      end
  end.

Ltac run := repeat (inner_case; simpl in *; simplify_eq).

(** ** Numbers and the region gate *)

Section RegionGate.

Local Open Scope Q_scope.

Lemma le_Fin (p q : Q) : le (Fin p) (Fin q) = true <-> p <= q.
Proof. apply Qle_bool_iff. Qed.

Lemma ge_Fin (p q : Q) : ge (Fin p) (Fin q) = true <-> q <= p.
Proof. apply Qle_bool_iff. Qed.

Lemma isLocationInBounds_iff (lat lng : Q) :
  isLocationInBounds (Fin lat) (Fin lng) = true <->
  (minLat KOLKATA_BOUNDS <= lat /\ lat <= maxLat KOLKATA_BOUNDS) /\
  (minLng KOLKATA_BOUNDS <= lng /\ lng <= maxLng KOLKATA_BOUNDS).
Proof.
  unfold isLocationInBounds.
  rewrite !andb_true_iff, !ge_Fin, !le_Fin. tauto.
Qed.

(** C7. The region gate is a total boolean function that answers true
    exactly on the closed rectangle of the stored bounds:
    south <= lat <= north and west <= lng <= east, so that a coordinate on a
    boundary is inside and one beyond any edge is outside.  A coordinate
    that is not a number is outside. *)
Theorem isLocationInBounds_closed_rectangle :
  (forall lat lng : Q,
      isLocationInBounds (Fin lat) (Fin lng) = true <->
      (minLat KOLKATA_BOUNDS <= lat /\ lat <= maxLat KOLKATA_BOUNDS) /\
      (minLng KOLKATA_BOUNDS <= lng /\ lng <= maxLng KOLKATA_BOUNDS)) /\
  (forall x : number, isLocationInBounds NaN x = false /\
                      isLocationInBounds x NaN = false).
Proof.
  split.
  - apply isLocationInBounds_iff.
  - intros x. unfold isLocationInBounds. split; [reflexivity|].
    destruct x; simpl; rewrite ?andb_false_r; reflexivity.
Qed.

Lemma isLocationInBounds_inside (lat lng : Q) :
  minLat KOLKATA_BOUNDS < lat -> lat < maxLat KOLKATA_BOUNDS ->
  minLng KOLKATA_BOUNDS < lng -> lng < maxLng KOLKATA_BOUNDS ->
  isLocationInBounds (Fin lat) (Fin lng) = true.
Proof.
  intros. apply isLocationInBounds_iff. auto using Qlt_le_weak.
Qed.

Lemma isLocationInBounds_outside (lat lng : Q) :
  lat < minLat KOLKATA_BOUNDS \/ maxLat KOLKATA_BOUNDS < lat \/
  lng < minLng KOLKATA_BOUNDS \/ maxLng KOLKATA_BOUNDS < lng ->
  isLocationInBounds (Fin lat) (Fin lng) = false.
Proof.
  intros H. apply not_true_is_false. rewrite isLocationInBounds_iff.
  intros [[H1 H2] [H3 H4]].
  destruct H as [H|[H|[H|H]]]; apply Qlt_not_le in H; contradiction.
Qed.

Lemma isLocationInBounds_corners :
  isLocationInBounds (Fin (minLat KOLKATA_BOUNDS)) (Fin (minLng KOLKATA_BOUNDS)) = true /\
  isLocationInBounds (Fin (maxLat KOLKATA_BOUNDS)) (Fin (maxLng KOLKATA_BOUNDS)) = true /\
  isLocationInBounds (Fin (minLat KOLKATA_BOUNDS)) (Fin (maxLng KOLKATA_BOUNDS)) = true /\
  isLocationInBounds (Fin (maxLat KOLKATA_BOUNDS)) (Fin (minLng KOLKATA_BOUNDS)) = true.
Proof. repeat split. Qed.

End RegionGate.

(** ** Traces *)

Section Traces.

Lemma progress_of_app t1 t2 : progress_of (t1 ++ t2) = progress_of t1 ++ progress_of t2.
Proof. apply omap_app. Qed.
Lemma transfers_of_app t1 t2 : transfers_of (t1 ++ t2) = transfers_of t1 ++ transfers_of t2.
Proof. apply omap_app. Qed.
Lemma alerts_of_app t1 t2 : alerts_of (t1 ++ t2) = alerts_of t1 ++ alerts_of t2.
Proof. apply omap_app. Qed.
Lemma failures_of_app t1 t2 : failures_of (t1 ++ t2) = failures_of t1 ++ failures_of t2.
Proof. apply omap_app. Qed.
Lemma store_calls_of_app t1 t2 :
  store_calls_of (t1 ++ t2) = store_calls_of t1 ++ store_calls_of t2.
Proof. apply omap_app. Qed.

Lemma progress_of_cons e t :
  progress_of (e :: t) =
  match e with
  | SetDownloadProgress p => p :: progress_of t
  | _ => progress_of t
  end.
Proof. by destruct e. Qed.
Lemma transfers_of_cons e t :
  transfers_of (e :: t) =
  match e with
  | Download url dest => (url, dest) :: transfers_of t
  | _ => transfers_of t
  end.
Proof. by destruct e. Qed.
Lemma alerts_of_cons e t :
  alerts_of (e :: t) =
  match e with
  | Alert title message => (title, message) :: alerts_of t
  | _ => alerts_of t
  end.
Proof. by destruct e. Qed.
Lemma failures_of_cons e t :
  failures_of (e :: t) =
  match e with
  | ConsoleError label error =>
      if bool_decide (label = "Download failed:")
         || bool_decide (label = "Processing failed:")
      then error :: failures_of t else failures_of t
  | _ => failures_of t
  end.
Proof.
  destruct e; try reflexivity. unfold failures_of. simpl.
  by destruct (_ || _).
Qed.
Lemma store_calls_of_cons e t :
  store_calls_of (e :: t) =
  if isStoreCall e then e :: store_calls_of t else store_calls_of t.
Proof. unfold store_calls_of. simpl. by destruct (isStoreCall e). Qed.
Lemma progress_of_nil : progress_of [] = [].
Proof. reflexivity. Qed.
Lemma transfers_of_nil : transfers_of [] = [].
Proof. reflexivity. Qed.
Lemma alerts_of_nil : alerts_of [] = [].
Proof. reflexivity. Qed.
Lemma failures_of_nil : failures_of [] = [].
Proof. reflexivity. Qed.
Lemma store_calls_of_nil : store_calls_of [] = [].
Proof. reflexivity. Qed.

Lemma progress_of_reports (l : list DownloadProgressData) :
  progress_of (map (fun d => SetDownloadProgress (shown d)) l) = map shown l.
Proof. induction l as [|d l IH]; [done|]. simpl. by rewrite progress_of_cons, IH. Qed.
Lemma transfers_of_reports (l : list DownloadProgressData) :
  transfers_of (map (fun d => SetDownloadProgress (shown d)) l) = [].
Proof. induction l as [|d l IH]; [done|]. simpl. by rewrite transfers_of_cons. Qed.
Lemma alerts_of_reports (l : list DownloadProgressData) :
  alerts_of (map (fun d => SetDownloadProgress (shown d)) l) = [].
Proof. induction l as [|d l IH]; [done|]. simpl. by rewrite alerts_of_cons. Qed.
Lemma failures_of_reports (l : list DownloadProgressData) :
  failures_of (map (fun d => SetDownloadProgress (shown d)) l) = [].
Proof. induction l as [|d l IH]; [done|]. simpl. by rewrite failures_of_cons. Qed.
Lemma store_calls_of_reports (l : list DownloadProgressData) :
  store_calls_of (map (fun d => SetDownloadProgress (shown d)) l) = [].
Proof. induction l as [|d l IH]; [done|]. simpl. by rewrite store_calls_of_cons. Qed.

End Traces.

Create Rewrite HintDb trace.
#[local] Hint Rewrite progress_of_app transfers_of_app alerts_of_app failures_of_app
  store_calls_of_app progress_of_reports transfers_of_reports alerts_of_reports
  failures_of_reports store_calls_of_reports
  progress_of_cons transfers_of_cons alerts_of_cons failures_of_cons
  store_calls_of_cons progress_of_nil transfers_of_nil alerts_of_nil
  failures_of_nil store_calls_of_nil : trace.

Section Frames.
Context (platform : Platform).

Lemma forEach_reports (l : list DownloadProgressData) (st : State) :
  forEach l onDownloadProgress st =
  Build_Run (Returned tt) (afterReports l st)
    (map (fun d => SetDownloadProgress (shown d)) l).
Proof.
  revert st. induction l as [|d l IH]; intros st; [reflexivity|].
  simpl. unfold_m. unfold onDownloadProgress at 1. unfold_m. rewrite IH.
  unfold afterReports. simpl. destruct l as [|d' l]; [reflexivity|].
  change (last (d :: d' :: l)) with (last (d' :: l)).
  destruct (last (d' :: l)) eqn:E; [reflexivity|].
  apply last_None in E. discriminate.
Qed.

Lemma afterReports_files l st : st_files (afterReports l st) = st_files st.
Proof. unfold afterReports. destruct (last l); reflexivity. Qed.

Lemma paths_distinct : mbtilesPath platform <> tempDownloadPath platform.
Proof.
  unfold mbtilesPath, tempDownloadPath. intros H.
  apply (inj (String.app _)) in H. discriminate.
Qed.

End Frames.

(** ** The availability check *)

Section Availability.
Context (platform : Platform).

Lemma checkOfflineMapAvailability_frame st :
  let r := checkOfflineMapAvailability platform st in
  outcome r = Returned tt /\ st_files (final r) = st_files st /\
  st_downloadProgress (final r) = st_downloadProgress st /\
  st_downloading (final r) = st_downloading st /\
  progress_of (events r) = [] /\ transfers_of (events r) = [] /\
  alerts_of (events r) = [] /\ failures_of (events r) = [] /\
  store_calls_of (events r) = [].
Proof.
  unfold checkOfflineMapAvailability, initializeDatabase, initializeDatabase_try,
    getInfoAsync, openDatabaseAsync.
  unfold_m. simpl. run; simpl; repeat split; try done.
Qed.

Lemma size_positive (content : string) :
  (truthy (Some (Z.of_nat (String.length content))) &&
   gt0 (Some (Z.of_nat (String.length content))) = true) <-> content <> EmptyString.
Proof.
  destruct content; simpl; intuition congruence.
Qed.

Lemma find_metadata_In (tables : list string) (name : string) :
  find (fun name => bool_decide (name = "metadata")) tables = Some name ->
  In "metadata" tables.
Proof.
  intros H. apply find_some in H as [Hin Heq].
  apply bool_decide_eq_true in Heq. by subst.
Qed.

Lemma find_metadata_None (tables : list string) :
  find (fun name => bool_decide (name = "metadata")) tables = None ->
  In "metadata" tables -> False.
Proof.
  intros H Hin. eapply find_none in H; [|exact Hin].
  by apply bool_decide_eq_false in H.
Qed.

(** The availability only depends on the canonical artifact. *)
Lemma isAvailable_canonical (st1 st2 : State) :
  st_files st1 !! mbtilesPath platform = st_files st2 !! mbtilesPath platform ->
  isAvailable platform st1 = isAvailable platform st2.
Proof.
  intros H.
  unfold isAvailable, checkOfflineMapAvailability, initializeDatabase,
    initializeDatabase_try, getInfoAsync, openDatabaseAsync.
  unfold_m. simpl. rewrite <- H. run; reflexivity.
Qed.

(** Without a canonical artifact the package is not available. *)
Lemma isAvailable_absent (st : State) :
  st_files st !! mbtilesPath platform = None -> isAvailable platform st = false.
Proof.
  intros H.
  unfold isAvailable, checkOfflineMapAvailability, initializeDatabase,
    initializeDatabase_try, getInfoAsync, openDatabaseAsync.
  unfold_m. simpl. by rewrite H.
Qed.

End Availability.

(** ** The header check *)

Section Header.

Lemma prefix_empty (s : string) : String.prefix EmptyString s = true.
Proof. by destruct s. Qed.

Ltac bits a := destruct a as [[] [] [] [] [] [] [] []]; try reflexivity.

(** The check of [isValidSQLiteDatabase] on the Base64 text of the first 16
    bytes is a check of the first six bytes of the file. *)
Lemma header_check (content : string) :
  startsWith (base64 (take 16 content)) "U1RGRnRt" = startsWith content "STFFtm".
Proof.
  unfold startsWith, take.
  destruct content as [|a [|b [|c rest]]].
  - reflexivity.
  - bits a.
  - bits a; bits b.
  - bits a; bits b; bits c.
    destruct rest as [|d [|e [|f rest]]].
    + reflexivity.
    + bits d.
    + bits d; bits e.
    + bits d; bits e; bits f.
      cbn. by rewrite !prefix_empty.
Qed.

End Header.

(** ** Processing the downloaded file *)

Ltac use_check :=
  repeat match goal with
    | H : checkOfflineMapAvailability ?p ?s = _ |- _ =>
        let F := fresh "F" in
        pose proof (checkOfflineMapAvailability_frame p s) as F;
        rewrite H in F; simpl in F;
        destruct F as (? & ? & ? & ? & ? & ? & ? & ? & ?);
        clear H
    end.

Ltac close_trace :=
  autorewrite with trace; simpl;
  repeat match goal with
    | H : _ ?t = [] |- context [?t] => rewrite H
    end;
  simpl; rewrite ?app_nil_r; simpl.

Section Processing.
Context (platform : Platform).

Lemma isValidSQLiteDatabase_run (filePath : string) (st : State) :
  isValidSQLiteDatabase platform filePath st =
  match st_files st !! filePath with
  | Some content => Build_Run (Returned (startsWith content "STFFtm")) st []
  | None =>
      Build_Run (Returned false) st
        [ConsoleError "Error checking SQLite header:" (missing_file platform filePath)]
  end.
Proof.
  unfold isValidSQLiteDatabase, readAsStringAsync. unfold_m. simpl.
  destruct (st_files st !! filePath); simpl; [|reflexivity].
  by rewrite header_check.
Qed.

Ltac run_processing :=
  unfold processDownloadedFile, processDownloadedFile_try,
    processDownloadedFile_cleanup, getInfoAsync, deleteAsync, moveAsync;
  unfold_m; simpl;
  repeat (first [rewrite isValidSQLiteDatabase_run | inner_case];
          simpl in *; simplify_eq);
  use_check; simplify_eq; simpl.

Lemma processDownloadedFile_frame (offlineMapAvailable : bool) (filePath : string) (st : State) :
  let r := processDownloadedFile platform offlineMapAvailable filePath st in
  outcome r = Returned tt /\ transfers_of (events r) = [].
Proof.
  run_processing.
  all: close_trace; repeat split; try done.
Qed.

(** Processing ends in exactly one of two ways: the success alert, which
    needs the captured availability to be true, or one caught failure with
    its alert. *)
Lemma processDownloadedFile_verdict (offlineMapAvailable : bool) (filePath : string) (st : State) :
  let r := processDownloadedFile platform offlineMapAvailable filePath st in
  (offlineMapAvailable = true /\
   alerts_of (events r) = [successAlert] /\
   failures_of (events r) = [] /\
   progress_of (events r) = [Fin 1]) \/
  (exists e,
     failures_of (events r) = [e] /\
     alerts_of (events r) = [("Processing Failed", processingErrorMessage e)] /\
     (progress_of (events r) = [] \/ progress_of (events r) = [Fin 1])).
Proof.
  run_processing.
  all: close_trace.
  all: first [ left; repeat split; reflexivity
             | right; eexists; repeat split; eauto ].
Qed.

(** Processing deletes nothing but the canonical artifact. *)
Lemma processDownloadedFile_deletes (offlineMapAvailable : bool) (filePath : string) (st : State) :
  let r := processDownloadedFile platform offlineMapAvailable filePath st in
  forall path, In (Delete path) (store_calls_of (events r)) -> path = mbtilesPath platform.
Proof.
  run_processing.
  all: close_trace.
  all: intros path Hin.
  all: repeat destruct Hin as [Hin|Hin]; simplify_eq; done.
Qed.

(** A non-empty file that fails the header check is rejected before the
    install: nothing is moved. *)
Lemma processDownloadedFile_rejects
    (offlineMapAvailable : bool) (filePath content : string) (st : State) :
  st_files st !! filePath = Some content ->
  content <> EmptyString ->
  startsWith content "STFFtm" = false ->
  let r := processDownloadedFile platform offlineMapAvailable filePath st in
  failures_of (events r) = [NotSQLite] /\
  alerts_of (events r) =
    [("Processing Failed",
      "Failed to process the downloaded map." +:+ newline +:+
      "The downloaded file is not a valid MBTiles file.")] /\
  progress_of (events r) = [] /\
  (forall from to, ~ In (Move from to) (store_calls_of (events r))).
Proof.
  intros Hfile Hne Hbad. simpl.
  run_processing.
  all: try (rewrite Hbad in *; done).
  all: try (destruct content; simpl in *; congruence).
  all: close_trace.
  all: repeat split; try done.
  all: intros from to Hin; repeat destruct Hin as [Hin|Hin]; simplify_eq; done.
Qed.

Lemma size_test (content : string) :
  negb (negb (Z.of_nat (String.length content) =? 0))
  || (Z.of_nat (String.length content) =? 0) = bool_decide (content = EmptyString).
Proof. by destruct content. Qed.

(** What a failure of processing leaves in the store. *)
Lemma processDownloadedFile_failed_store
    (offlineMapAvailable : bool) (content : string) (st : State) :
  st_files st !! tempDownloadPath platform = Some content ->
  deleteAsync_fault platform (mbtilesPath platform) = None ->
  let r := processDownloadedFile platform offlineMapAvailable (tempDownloadPath platform) st in
  let temp := tempDownloadPath platform in
  let canonical := mbtilesPath platform in
  (startsWith content "STFFtm" = false ->
     failures_of (events r) =
       [if bool_decide (content = EmptyString) then EmptyOrInvalid else NotSQLite] /\
     st_files (final r) !! temp = Some content /\
     st_files (final r) !! canonical = None) /\
  (forall e,
     startsWith content "STFFtm" = true ->
     moveAsync_fault platform temp canonical = Some e ->
     failures_of (events r) = [e] /\
     st_files (final r) !! temp = Some content /\
     st_files (final r) !! canonical = None) /\
  (startsWith content "STFFtm" = true ->
   moveAsync_fault platform temp canonical = None ->
   offlineMapAvailable = false ->
     failures_of (events r) = [InvalidOrCorrupted] /\
     st_files (final r) !! temp = None /\
     st_files (final r) !! canonical = None).
Proof.
  intros Hfile Hdelete. cbv zeta.
  pose proof (paths_distinct platform) as Hne.
  split; [|split]; [intros Hbad|intros e Hgood Hmove|intros Hgood Hmove ->].
  all: revert Hfile.
  all: unfold processDownloadedFile, processDownloadedFile_try,
         processDownloadedFile_cleanup, getInfoAsync, deleteAsync, moveAsync;
       unfold_m; simpl.
  all: repeat (first [rewrite isValidSQLiteDatabase_run | rewrite size_test | inner_case];
               simpl in *; simplify_eq).
  all: use_check; simplify_eq; simpl.
  all: intros; simplify_eq; close_trace.
  all: try congruence.
  all: try (match goal with H : startsWith _ _ = _ |- _ => rewrite H in *; done end).
  all: rewrite ?lookup_insert_eq, ?lookup_delete_eq in *; simplify_eq.
  all: repeat match goal with H : st_files _ = _ |- _ => rewrite H; clear H end.
  all: rewrite ?lookup_delete_eq, ?lookup_delete_ne, ?lookup_insert_ne,
         ?lookup_delete_eq by done.
  all: try by repeat split.
  all: try (match goal with H : bool_decide (_ = EmptyString) = true |- _ =>
              apply bool_decide_eq_true in H; subst; discriminate end).
  all: exfalso.
  all: repeat match goal with
       | H : context [delete _ _ !! _] |- _ => rewrite lookup_delete_ne in H by done
       end.
  all: simplify_eq.
  all: match goal with
       | H : bool_decide (?c = EmptyString) = false |- _ =>
           apply bool_decide_eq_false in H; destruct c; [done|discriminate]
       end.
Qed.


End Processing.

(** ** Acquiring the file *)

Section Acquire.
Context (platform : Platform).

Ltac run_acquire :=
  unfold startDownload_acquire, getInfoAsync, deleteAsync, downloadAsync,
    readAsStringAsync;
  unfold_m; simpl;
  repeat (first [ rewrite forEach_reports
                | rewrite afterReports_files
                | rewrite lookup_insert_eq
                | inner_case ];
          simpl in *; simplify_eq).

Lemma startDownload_acquire_frame (st : State) :
  let a := startDownload_acquire platform st in
  st_files (final a) !! mbtilesPath platform = st_files st !! mbtilesPath platform /\
  alerts_of (events a) = [] /\
  failures_of (events a) = [] /\
  (forall uri, outcome a = Returned uri -> uri = tempDownloadPath platform).
Proof.
  pose proof (paths_distinct platform) as Hne.
  run_acquire.
  all: close_trace.
  all: rewrite ?afterReports_files; simpl.
  all: rewrite ?lookup_insert_ne, ?lookup_delete_ne by done.
  all: repeat split; try done.
  all: try (intros; simplify_eq; done).
Qed.

(** At most two transfers, both to the provisional path; the progress
    values are those of their reports. *)
Lemma startDownload_acquire_transfers (st : State) :
  let a := startDownload_acquire platform st in
  let temp := tempDownloadPath platform in
  let first := serve platform GITHUB_RELEASE_URL in
  (transfers_of (events a) = [] /\ progress_of (events a) = [] /\
   exists e, outcome a = Thrown e) \/
  (transfers_of (events a) = [(GITHUB_RELEASE_URL, temp)] /\
   progress_of (events a) = map shown (reports first)) \/
  (exists link,
     transfers_of (events a) = [(GITHUB_RELEASE_URL, temp); (link, temp)] /\
     progress_of (events a) =
       map shown (reports first) ++ map shown (reports (serve platform link))).
Proof.
  run_acquire.
  all: close_trace.
  all: first [ left; split; [reflexivity|]; split; [reflexivity|]; eexists; reflexivity
             | right; left; split; reflexivity
             | right; right; eexists; split; reflexivity ].
Qed.

(** The provisional path is deleted at most once, and then before any
    transfer: what follows deletes nothing. *)
Lemma startDownload_acquire_store_calls (st : State) :
  let a := startDownload_acquire platform st in
  exists pre post,
    store_calls_of (events a) = pre ++ post /\
    (pre = [] \/ pre = [Delete (tempDownloadPath platform)]) /\
    (forall path, ~ In (Delete path) post).
Proof.
  run_acquire.
  all: close_trace.
  all: first
    [ exists [], []; split; [reflexivity|]; split; [by left|]; by intros ? []
    | match goal with
      | |- exists pre post, Delete ?p :: ?l = _ /\ _ =>
          exists [Delete p], l
      | |- exists pre post, ?l = _ /\ _ => exists [], l
      end;
      split; [reflexivity|]; split; [by auto|];
      intros path Hin; repeat destruct Hin as [Hin|Hin]; simplify_eq; done ].
Qed.

(** A delivered first transfer whose first 100 bytes contain the doctype is
    read in full and searched for the link. *)
Lemma startDownload_acquire_page (st : State) (html : string) :
  st_files st !! tempDownloadPath platform = None \/
    deleteAsync_fault platform (tempDownloadPath platform) = None ->
  written (serve platform GITHUB_RELEASE_URL) = Some html ->
  settles (serve platform GITHUB_RELEASE_URL) = WithUri ->
  includes (take 100 html) "<!DOCTYPE html>" = true ->
  let a := startDownload_acquire platform st in
  let temp := tempDownloadPath platform in
  match extractDirectDownloadLink html with
  | None =>
      outcome a = Thrown LinkExtractionFailed /\
      transfers_of (events a) = [(GITHUB_RELEASE_URL, temp)]
  | Some link =>
      transfers_of (events a) = [(GITHUB_RELEASE_URL, temp); (link, temp)] /\
      match settles (serve platform link) with
      | WithUri =>
          outcome a = Returned temp /\
          st_files (final a) !! temp =
            match written (serve platform link) with
            | Some retried => Some retried
            | None => Some html
            end
      | WithoutUri => outcome a = Thrown RetryNoFileReceived
      | Fails e => outcome a = Thrown e
      end
  end.
Proof.
  intros Hstale Hwritten Hsettles Hsniff. simpl.
  run_acquire.
  all: try (destruct Hstale; congruence).
  all: close_trace.
  all: rewrite ?afterReports_files; simpl.
  all: rewrite ?lookup_insert_eq.
  all: repeat split; try done.

Qed.

(** A delivered first transfer whose first 100 bytes do not contain the
    doctype is handed to processing as it was written. *)
Lemma startDownload_acquire_file (st : State) (content : string) :
  st_files st !! tempDownloadPath platform = None \/
    deleteAsync_fault platform (tempDownloadPath platform) = None ->
  written (serve platform GITHUB_RELEASE_URL) = Some content ->
  settles (serve platform GITHUB_RELEASE_URL) = WithUri ->
  includes (take 100 content) "<!DOCTYPE html>" = false ->
  let a := startDownload_acquire platform st in
  outcome a = Returned (tempDownloadPath platform) /\
  st_files (final a) !! tempDownloadPath platform = Some content.
Proof.
  intros Hstale Hwritten Hsettles Hsniff. simpl.
  run_acquire.
  all: try (destruct Hstale; congruence).
  all: rewrite ?afterReports_files; simpl.
  all: rewrite ?lookup_insert_eq.
  all: by repeat split.
Qed.

End Acquire.

(** ** The shape of an invocation *)

Section Invocation.
Context (platform : Platform).

Lemma startDownload_try_acquire (offlineMapAvailable : bool) (st : State) :
  startDownload_try platform offlineMapAvailable st =
  (uri ← startDownload_acquire platform;
   processDownloadedFile platform offlineMapAvailable uri) st.
Proof.
  unfold startDownload_try, startDownload_acquire. unfold_m.
  repeat (inner_case; simpl in *; simplify_eq); try reflexivity.
  all: f_equal; by rewrite ?app_nil_r, <- ?app_assoc.
Qed.

Lemma startDownload_shape (offlineMapAvailable : bool) (st : State) :
  let a := startDownload_acquire platform (withDownload true (Fin 0) st) in
  startDownload platform offlineMapAvailable st =
  match outcome a with
  | Returned uri =>
      let p := processDownloadedFile platform offlineMapAvailable uri (final a) in
      Build_Run (Returned tt) (withDownload false (Fin 0) (final p))
        (SetDownloading true :: SetDownloadProgress (Fin 0) ::
         events a ++ events p ++
         [SetDownloading false; SetDownloadProgress (Fin 0)])
  | Thrown e =>
      Build_Run (Returned tt) (withDownload false (Fin 0) (final a))
        (SetDownloading true :: SetDownloadProgress (Fin 0) ::
         events a ++
         [ConsoleError "Download failed:" e;
          Alert "Download Failed" (downloadErrorMessage e);
          SetDownloading false; SetDownloadProgress (Fin 0)])
  end.
Proof.
  unfold startDownload. unfold_m. simpl.
  rewrite startDownload_try_acquire. unfold_m. unfold withDownload. simpl.
  destruct (startDownload_acquire platform _) as [[uri|e] s t]; simpl.
  - pose proof (processDownloadedFile_frame platform offlineMapAvailable uri s) as [Ho _].
    destruct (processDownloadedFile platform offlineMapAvailable uri s) as [o s' t'].
    simpl in *. subst o. simpl. f_equal. by rewrite <- !app_assoc.
  - f_equal. by rewrite <- !app_assoc.
Qed.

End Invocation.

(** ** The link pattern *)

Section LinkPattern.

Lemma append_cons (c : ascii) (s t : string) : String c s +:+ t = String c (s +:+ t).
Proof. reflexivity. Qed.

Lemma append_empty_l (t : string) : EmptyString +:+ t = t.
Proof. reflexivity. Qed.

Lemma prefix_split (p s : string) :
  String.prefix p s = true -> s = p +:+ drop (String.length p) s.
Proof.
  revert s. induction p as [|c p IH]; intros s H; [by destruct s|].
  destruct s as [|c' s]; [discriminate|]. simpl in H.
  destruct (ascii_dec c c') as [<-|]; [|discriminate].
  rewrite append_cons. simpl. f_equal. by apply IH.
Qed.

Lemma prefix_append (p r : string) : String.prefix p (p +:+ r) = true.
Proof.
  induction p as [|c p IH]; [by rewrite append_empty_l, prefix_empty|].
  rewrite append_cons. simpl. by destruct (ascii_dec c c).
Qed.

Lemma drop_append (p r : string) : drop (String.length p) (p +:+ r) = r.
Proof. induction p as [|c p IH]; [reflexivity|]. rewrite append_cons. apply IH. Qed.

(** The greedy run stops at the end of the text or in front of a quote,
    and contains none. *)
Lemma upToQuote_split (s : string) :
  s = upToQuote s +:+ drop (String.length (upToQuote s)) s /\
  ~ In quote (String.list_ascii_of_string (upToQuote s)) /\
  (drop (String.length (upToQuote s)) s = EmptyString \/
   exists rest, drop (String.length (upToQuote s)) s = String quote rest).
Proof.
  induction s as [|c s (IH1 & IH2 & IH3)]; simpl.
  - repeat split; auto.
  - destruct (Ascii.eqb c quote) eqn:E; simpl.
    + apply Ascii.eqb_eq in E as ->. repeat split; eauto.
    + apply Ascii.eqb_neq in E. rewrite append_cons. repeat split.
      * congruence.
      * intros [?|?]; congruence.
      * exact IH3.
Qed.

Lemma matchHere_Some (s m : string) :
  matchHere s = Some m ->
  exists token post,
    s = confirmLiteral +:+ token +:+ post /\
    m = confirmLiteral +:+ token /\
    token <> EmptyString /\
    ~ In quote (String.list_ascii_of_string token) /\
    (post = EmptyString \/ exists rest, post = String quote rest).
Proof.
  unfold matchHere. destruct (String.prefix confirmLiteral s) eqn:Hp; [|discriminate].
  apply prefix_split in Hp.
  set (tail := drop (String.length confirmLiteral) s) in *.
  destruct (upToQuote_split tail) as (H1 & H2 & H3).
  destruct (upToQuote tail) as [|c token] eqn:Ht; [discriminate|].
  intros [= <-]. eexists _, _. repeat split; eauto.
  rewrite Hp at 1. f_equal. exact H1.
Qed.

Lemma matchHere_occurrence (c : ascii) (post : string) :
  c <> quote ->
  matchHere (confirmLiteral +:+ String c post) <> None.
Proof.
  intros Hc. unfold matchHere. rewrite prefix_append, drop_append. simpl.
  apply Ascii.eqb_neq in Hc. by rewrite Hc.
Qed.

(** What the expression finds: the leftmost occurrence of the literal that
    is followed by a byte other than a quote, extended to the next quote. *)
Lemma regexMatch_Some (s m : string) :
  regexMatch s = Some m ->
  exists pre token post,
    s = pre +:+ confirmLiteral +:+ token +:+ post /\
    m = confirmLiteral +:+ token /\
    token <> EmptyString /\
    ~ In quote (String.list_ascii_of_string token) /\
    (post = EmptyString \/ exists rest, post = String quote rest).
Proof.
  induction s as [|c s IH]; simpl.
  - discriminate.
  - destruct (matchHere (String c s)) eqn:E.
    + intros [= ->]. apply matchHere_Some in E as (token & post & ? & ?).
      by exists EmptyString, token, post.
    + intros H. destruct (IH H) as (pre & token & post & -> & ?).
      by exists (String c pre), token, post.
Qed.

Lemma regexMatch_None (s : string) :
  regexMatch s = None ->
  forall pre c post, s = pre +:+ confirmLiteral +:+ String c post -> c = quote.
Proof.
  induction s as [|a s IH]; simpl.
  - intros _ [|? ?] c post H; discriminate.
  - destruct (matchHere (String a s)) eqn:E; [discriminate|].
    intros H [|a' pre] c post Heq.
    + rewrite append_empty_l in Heq. rewrite Heq in E.
      destruct (decide (c = quote)) as [|Hc]; [done|].
      by apply matchHere_occurrence with (post := post) in Hc.
    + rewrite append_cons in Heq. injection Heq as -> ->. by eapply IH.
Qed.

End LinkPattern.

(** ** Progress values *)

Section Progress.

Local Open Scope Q_scope.











End Progress.

(** * The claims of the specification *)

(** ** Format validation (C1) *)

(** C1.  The specification has the header check accept exactly the files
    that begin with the 16-byte signature of the database format.  The
    constant the check compares with is not the Base64 text of that
    signature: every file that begins with the signature is rejected as
    [NotSQLite] (InvalidFormat) and is not installed, while a file that
    begins with the six bytes [STFFtm] passes the check. *)
Theorem sqlite_signature_is_rejected
    (platform : Platform) (offlineMapAvailable : bool) (st : State)
    (filePath rest : string) :
  st_files st !! filePath = Some (SQLITE_SIGNATURE +:+ rest) ->
  let r := processDownloadedFile platform offlineMapAvailable filePath st in
  outcome (isValidSQLiteDatabase platform filePath st) = Returned false /\
  failures_of (events r) = [NotSQLite] /\
  taxonomy NotSQLite = Some InvalidFormat /\
  (forall from to, ~ In (Move from to) (store_calls_of (events r))) /\
  (forall st' rest',
      st_files st' !! filePath = Some ("STFFtm" +:+ rest') ->
      outcome (isValidSQLiteDatabase platform filePath st') = Returned true).
Proof.
  intros Hfile r.
  assert (Hbad : startsWith (SQLITE_SIGNATURE +:+ rest) "STFFtm" = false)
    by reflexivity.
  destruct (processDownloadedFile_rejects platform offlineMapAvailable filePath
              (SQLITE_SIGNATURE +:+ rest) st Hfile) as (Hf & _ & _ & Hm);
    [discriminate|exact Hbad|].
  repeat split; try done.
  - by rewrite isValidSQLiteDatabase_run, Hfile, Hbad.
  - intros st' rest' Hfile'. rewrite isValidSQLiteDatabase_run, Hfile'.
    unfold startsWith. by rewrite (prefix_append "STFFtm").
Qed.

Lemma sqlite_signature_is_rejected_witness :
  let platform := fakePlatform (delivers sqliteFile) (delivers sqliteFile) tilesDatabase in
  let st := installedState sqliteFile in
  st_files st !! mbtilesPath platform = Some (SQLITE_SIGNATURE +:+ "payload") /\
  outcome (isValidSQLiteDatabase platform (mbtilesPath platform) st) = Returned false.
Proof.
  split; [reflexivity|].
  eapply (sqlite_signature_is_rejected _ false). reflexivity.
Defined.

(** ** The download operation always settles (C10) *)

(** C10.  Every invocation of the download operation returns normally (no
    exception escapes it) and leaves the downloading flag false and the
    progress 0; the last progress value it reports is 0, also after a
    successful install. *)
Theorem startDownload_always_resets
    (platform : Platform) (offlineMapAvailable : bool) (st : State) :
  let r := startDownload platform offlineMapAvailable st in
  outcome r = Returned tt /\
  st_downloading (final r) = false /\
  st_downloadProgress (final r) = Fin 0 /\
  last (progress_of (events r)) = Some (Fin 0).
Proof.
  unfold startDownload. unfold_m. simpl.
  destruct (startDownload_try _ _ _) as [[[]|e] s t]; simpl.
  all: repeat split.
  all: autorewrite with trace; simpl.
  all: rewrite app_comm_cons; apply last_snoc.
Qed.

(** ** Deleting the package (C9) *)


(** ** Availability (C6) *)

(** C6, as stated, fails: a canonical artifact whose database has no table
    at all is reported available. *)
Lemma isAvailable_without_tiles_table :
  let platform := fakePlatform (delivers plainPage) (delivers plainPage) blankDatabase in
  let st := installedState "x" in
  isAvailable platform st = true /\
  (forall content database tables,
      st_files st !! mbtilesPath platform = Some content ->
      openDatabaseAsync_on platform content = Fulfilled (Some database) ->
      table_names database = Fulfilled tables ->
      ~ In "tiles" tables /\ ~ In "tile" tables).
Proof.
  split; [reflexivity|].
  intros content database tables _ [= <-] [= <-]. split; intros [].
Qed.

(** C6, amended.  The availability check never throws, and it answers true
    exactly when the canonical artifact exists and is not empty, the
    database opens, the table listing succeeds, the row count succeeds if a
    table named [tiles] or [tile] is listed, and the metadata query succeeds
    if a table named [metadata] is listed.  A missing tiles table does not
    make the package unavailable; any exception of the open or of a query
    does. *)
Theorem isAvailable_iff_queries_succeed (platform : Platform) (st : State) :
  outcome (checkOfflineMapAvailability platform st) = Returned tt /\
  (isAvailable platform st = true <->
   exists content database tables,
     st_files st !! mbtilesPath platform = Some content /\
     content <> EmptyString /\
     openDatabaseAsync_on platform content = Fulfilled (Some database) /\
     table_names database = Fulfilled tables /\
     (forall tilesTable, find isTilesTable tables = Some tilesTable ->
        exists row, count_rows database tilesTable = Fulfilled row) /\
     (In "metadata" tables ->
        exists rows, metadata_rows database = Fulfilled rows)).
Proof.
  split; [apply checkOfflineMapAvailability_frame|].
  unfold isAvailable, checkOfflineMapAvailability, initializeDatabase,
    initializeDatabase_try, getInfoAsync, openDatabaseAsync.
  unfold_m. simpl. run; simpl.
  all: try (split; [discriminate|];
            intros (c' & d' & t' & ? & Hne & ? & ? & Hc & Hm); simplify_eq;
            repeat match goal with
              | H1 : ?x = _, H2 : ?x = _ |- _ => rewrite H1 in H2; simplify_eq
              end).
  all: try (apply size_positive in Hne; simpl in *; congruence).
  all: try (edestruct Hc; [eassumption|congruence]).
  all: try (destruct Hm; [eapply find_metadata_In; eauto | congruence]).
  all: split; [intros _|reflexivity].
  all: eexists _, _, _; split; [reflexivity|].
  all: split; [by apply size_positive|].
  all: repeat split; eauto.
  all: try (intros; simplify_eq; eauto).
  all: exfalso; eapply find_metadata_None; eassumption.
Qed.

(** ** Reading an invocation *)

Section Reading.
Context (platform : Platform).

Lemma startDownload_traces (offlineMapAvailable : bool) (st : State) :
  let a := startDownload_acquire platform (withDownload true (Fin 0) st) in
  let r := startDownload platform offlineMapAvailable st in
  transfers_of (events r) = transfers_of (events a) /\
  match outcome a with
  | Returned uri =>
      let p := processDownloadedFile platform offlineMapAvailable uri (final a) in
      uri = tempDownloadPath platform /\
      st_files (final r) = st_files (final p) /\
      alerts_of (events r) = alerts_of (events p) /\
      failures_of (events r) = failures_of (events p) /\
      progress_of (events r) =
        Fin 0 :: progress_of (events a) ++ progress_of (events p) ++ [Fin 0] /\
      store_calls_of (events r) =
        store_calls_of (events a) ++ store_calls_of (events p)
  | Thrown e =>
      st_files (final r) = st_files (final a) /\
      alerts_of (events r) = [("Download Failed", downloadErrorMessage e)] /\
      failures_of (events r) = [e] /\
      progress_of (events r) = Fin 0 :: progress_of (events a) ++ [Fin 0] /\
      store_calls_of (events r) = store_calls_of (events a)
  end.
Proof.
  intros a r. subst r. rewrite startDownload_shape. fold a.
  destruct (startDownload_acquire_frame platform (withDownload true (Fin 0) st))
    as (_ & Ha & Hf & Huri).
  fold a in Ha, Hf, Huri.
  destruct (outcome a) as [uri|e] eqn:Ho; simpl.
  - destruct (processDownloadedFile_frame platform offlineMapAvailable uri (final a))
      as [_ Ht].
    autorewrite with trace. simpl. rewrite Ha, Hf, Ht. simpl.
    rewrite ?app_nil_r. repeat split; auto.
  - autorewrite with trace. simpl. rewrite Ha, Hf. simpl.
    rewrite ?app_nil_r. repeat split; auto.
Qed.

End Reading.

(** ** A successful install (C3) *)

Lemma startDownload_success_needs_availability (platform : Platform) (st : State) :
  ~ succeeded (startDownload platform false st).
Proof.
  unfold succeeded.
  destruct (startDownload_traces platform false st) as [_ H].
  destruct (outcome (startDownload_acquire platform _)) as [uri|e].
  - destruct H as (_ & _ & -> & _).
    destruct (processDownloadedFile_verdict platform false uri
                (final (startDownload_acquire platform (withDownload true (Fin 0) st))))
      as [[? _]|(e & _ & -> & _)]; [discriminate|].
    intros Hin. apply list_elem_of_singleton in Hin. discriminate.
  - destruct H as (_ & -> & _).
    intros Hin. apply list_elem_of_singleton in Hin. discriminate.
Qed.

(** C3.  The specification has a successful install take the success path
    and leave the package available.  The code decides between the success
    alert and the failure path on the availability that the running closure
    captured before the call, not on the one the check has just computed.
    From a state without a package (the only one in which the screen offers
    the download) the success path is therefore never taken: a file that
    passes the header check is moved to the canonical path, verified,
    reported at progress 1.0, then reported as corrupted and deleted by the
    cleanup, so that the package is not available afterwards. *)
Theorem fresh_install_ends_in_cleanup :
  (forall platform st, ~ succeeded (startDownload platform false st)) /\
  let platform := fakePlatform (delivers acceptedFile) (delivers acceptedFile) tilesDatabase in
  let r := fetchAndInstall platform emptyState in
  store_calls_of (events r) =
    [Download GITHUB_RELEASE_URL (tempDownloadPath platform);
     Move (tempDownloadPath platform) (mbtilesPath platform);
     Delete (mbtilesPath platform)] /\
  progress_of (events r) = [Fin 0; Fin (50 # 100); Fin (9 # 10); Fin 1; Fin 0] /\
  failures_of (events r) = [InvalidOrCorrupted] /\
  alerts_of (events r) =
    [("Processing Failed",
      "Failed to process the downloaded map." +:+ newline +:+
      "The downloaded file is corrupted.")] /\
  st_files (final r) !! mbtilesPath platform = None /\
  isAvailable platform (final r) = false.
Proof.
  split; [apply startDownload_success_needs_availability|].
  vm_compute. repeat split.
Qed.

(** ** The host page and its link (C4) *)

Lemma fails_with_intro (k : PipelineError) (r : Run unit) (e : Exception) :
  failures_of (events r) = [e] -> taxonomy e = Some k -> fails_with k r.
Proof. intros H1 H2. exists e. rewrite H1. split; [constructor|done]. Qed.

(** C4.  When the first transfer completes and the first 100 bytes of the
    provisional artifact contain the document signature, the whole artifact
    is searched for the fragment [uc?export=download&confirm=<token>] with a
    non-empty token free of quotes.  Without such a fragment the call fails
    with the link-extraction error (RedirectExtractionFailed) after the one
    transfer; with one, exactly one retry transfer follows, from the
    fragment resolved against the hosting domain to the same provisional
    path. *)
Theorem html_page_is_retried_once
    (platform : Platform) (st : State) (html : string) :
  st_files st !! tempDownloadPath platform = None \/
    deleteAsync_fault platform (tempDownloadPath platform) = None ->
  written (serve platform GITHUB_RELEASE_URL) = Some html ->
  settles (serve platform GITHUB_RELEASE_URL) = WithUri ->
  includes (take 100 html) "<!DOCTYPE html>" = true ->
  let r := fetchAndInstall platform st in
  let temp := tempDownloadPath platform in
  match extractDirectDownloadLink html with
  | None =>
      (forall pre c post,
          html = pre +:+ confirmLiteral +:+ String c post -> c = quote) /\
      fails_with RedirectExtractionFailed r /\
      transfers_of (events r) = [(GITHUB_RELEASE_URL, temp)]
  | Some link =>
      (exists pre token post,
          html = pre +:+ confirmLiteral +:+ token +:+ post /\
          token <> EmptyString /\
          ~ In quote (String.list_ascii_of_string token) /\
          link = "https://drive.google.com/" +:+ confirmLiteral +:+ token) /\
      transfers_of (events r) = [(GITHUB_RELEASE_URL, temp); (link, temp)]
  end.
Proof.
  intros Hstale Hwritten Hsettles Hsniff r temp. subst r temp.
  unfold fetchAndInstall.
  pose proof (startDownload_acquire_page platform (withDownload true (Fin 0) st) html
                Hstale Hwritten Hsettles Hsniff) as Hpage.
  destruct (startDownload_traces platform (st_offlineMapAvailable st) st) as [Ht Hr].
  simpl in Hpage.
  unfold extractDirectDownloadLink in *.
  destruct (regexMatch html) as [m|] eqn:Hm.
  - destruct Hpage as [Htr _]. split.
    + apply regexMatch_Some in Hm as (pre & token & post & ? & -> & ? & ? & _).
      by exists pre, token, post.
    + by rewrite Ht.
  - destruct Hpage as [Ho Htr]. rewrite Ho in Hr.
    destruct Hr as (_ & _ & Hf & _). repeat split.
    + by apply regexMatch_None.
    + by eapply fails_with_intro.
    + by rewrite Ht.
Qed.

Lemma html_page_is_retried_once_witness :
  let platform := fakePlatform (delivers confirmPage) (delivers acceptedFile) tilesDatabase in
  let r := fetchAndInstall platform emptyState in
  exists link,
    extractDirectDownloadLink confirmPage = Some link /\
    transfers_of (events r) =
      [(GITHUB_RELEASE_URL, tempDownloadPath platform);
       (link, tempDownloadPath platform)].
Proof.
  intros platform r.
  assert (H := html_page_is_retried_once platform emptyState confirmPage
                 (or_introl eq_refl) eq_refl eq_refl eq_refl).
  destruct (extractDirectDownloadLink confirmPage) as [link|] eqn:E.
  - exists link. split; [reflexivity|]. apply H.
  - vm_compute in E. discriminate E.
Defined.

(** ** One retry at most (C5) *)

Lemma taxonomy_not_StillHtmlAfterRetry (e : Exception) :
  taxonomy e <> Some StillHtmlAfterRetry.
Proof. unfold taxonomy. repeat case_decide; discriminate. Qed.

Lemma never_StillHtmlAfterRetry (r : Run unit) : ~ fails_with StillHtmlAfterRetry r.
Proof. intros (e & _ & H). by apply taxonomy_not_StillHtmlAfterRetry in H. Qed.

Lemma doctype_is_not_accepted (page : string) :
  startsWith page "<!DOCTYPE html>" = true ->
  page <> EmptyString /\ startsWith page "STFFtm" = false.
Proof.
  unfold startsWith. destruct page as [|c page]; [discriminate|].
  destruct c as [[] [] [] [] [] [] [] []]; try (intros H; discriminate H).
  intros _. split; [discriminate|reflexivity].
Qed.

(** C5, as stated, fails: when the retry delivers a host page again, the
    call does not fail with StillHtmlAfterRetry; the page is handed to the
    header check and rejected as [NotSQLite] (InvalidFormat). *)
Lemma second_page_is_invalid_format :
  let platform := fakePlatform (delivers confirmPage) (delivers plainPage) tilesDatabase in
  let r := fetchAndInstall platform emptyState in
  includes (take 100 plainPage) "<!DOCTYPE html>" = true /\
  written (serve platform "https://drive.google.com/uc?export=download&confirm=XYZ")
    = Some plainPage /\
  failures_of (events r) = [NotSQLite] /\
  taxonomy NotSQLite = Some InvalidFormat /\
  ~ fails_with StillHtmlAfterRetry r.
Proof.
  repeat split; try reflexivity. apply never_StillHtmlAfterRetry.
Qed.

(** C5, amended.  An invocation issues at most two transfers, both to the
    provisional path, and never fails with StillHtmlAfterRetry: the content
    of the retry is not examined for a host page again.  When the retry
    delivers a page that begins with the document signature, the call fails
    at the header check with [NotSQLite] (InvalidFormat) after exactly two
    transfers. *)
Theorem at_most_one_retry
    (platform : Platform) (st : State) (html link page : string) :
  st_files st !! tempDownloadPath platform = None \/
    deleteAsync_fault platform (tempDownloadPath platform) = None ->
  written (serve platform GITHUB_RELEASE_URL) = Some html ->
  settles (serve platform GITHUB_RELEASE_URL) = WithUri ->
  includes (take 100 html) "<!DOCTYPE html>" = true ->
  extractDirectDownloadLink html = Some link ->
  written (serve platform link) = Some page ->
  settles (serve platform link) = WithUri ->
  startsWith page "<!DOCTYPE html>" = true ->
  let temp := tempDownloadPath platform in
  (forall platform' st',
      let r' := fetchAndInstall platform' st' in
      (length (transfers_of (events r')) <= 2)%nat /\
      (forall url dest, In (url, dest) (transfers_of (events r')) ->
                        dest = tempDownloadPath platform') /\
      ~ fails_with StillHtmlAfterRetry r') /\
  let r := fetchAndInstall platform st in
  transfers_of (events r) = [(GITHUB_RELEASE_URL, temp); (link, temp)] /\
  failures_of (events r) = [NotSQLite] /\
  fails_with InvalidFormat r.
Proof.
  intros Hstale Hwritten Hsettles Hsniff Hlink Hwritten' Hsettles' Hpage temp.
  split.
  - intros platform' st' r'. subst r'. unfold fetchAndInstall.
    destruct (startDownload_traces platform' (st_offlineMapAvailable st') st') as [-> _].
    split; [|split; [|apply never_StillHtmlAfterRetry]].
    + destruct (startDownload_acquire_transfers platform' (withDownload true (Fin 0) st'))
        as [(-> & _)|[[-> _]|(l & -> & _)]]; simpl; lia.
    + intros url dest.
      destruct (startDownload_acquire_transfers platform' (withDownload true (Fin 0) st'))
        as [(-> & _)|[[-> _]|(l & -> & _)]]; simpl; intros Hin;
        repeat destruct Hin as [Hin|Hin]; simplify_eq; done.
  - intros r. subst r temp. unfold fetchAndInstall.
    pose proof (startDownload_acquire_page platform (withDownload true (Fin 0) st) html
                  Hstale Hwritten Hsettles Hsniff) as Ha.
    simpl in Ha. rewrite Hlink, Hsettles', Hwritten' in Ha.
    destruct Ha as (Htr & Ho & Hfile).
    destruct (startDownload_traces platform (st_offlineMapAvailable st) st) as [Ht Hr].
    rewrite Ho in Hr. destruct Hr as (_ & _ & _ & Hf & _).
    destruct (doctype_is_not_accepted page Hpage) as [Hne Hbad].
    destruct (processDownloadedFile_rejects platform (st_offlineMapAvailable st)
                (tempDownloadPath platform) page _ Hfile Hne Hbad) as (Hrej & _).
    rewrite Hrej in Hf.
    repeat split; [by rewrite Ht|done|by eapply fails_with_intro].
Qed.

Lemma at_most_one_retry_witness :
  let platform := fakePlatform (delivers confirmPage) (delivers plainPage) tilesDatabase in
  let r := fetchAndInstall platform emptyState in
  failures_of (events r) = [NotSQLite] /\
  (length (transfers_of (events r)) <= 2)%nat.
Proof.
  intros platform r.
  destruct (at_most_one_retry platform emptyState confirmPage
              "https://drive.google.com/uc?export=download&confirm=XYZ" plainPage
              (or_introl eq_refl) eq_refl eq_refl eq_refl eq_refl eq_refl eq_refl eq_refl)
    as (Hall & _ & Hf & _).
  split; [exact Hf|]. apply (Hall platform emptyState).
Defined.

(** ** Progress of a successful call (C8) *)

(** A call that ends with the success alert has completed the install. *)
Lemma succeeded_completed
    (platform : Platform) (offlineMapAvailable : bool) (st : State) :
  succeeded (startDownload platform offlineMapAvailable st) ->
  completed (startDownload platform offlineMapAvailable st).
Proof.
  unfold succeeded, completed.
  destruct (startDownload_traces platform offlineMapAvailable st) as [_ Hr].
  destruct (outcome (startDownload_acquire platform _)) as [uri|e].
  - destruct Hr as (_ & _ & Hal & _ & Hp & _). rewrite Hal, Hp.
    destruct (processDownloadedFile_verdict platform offlineMapAvailable uri
                (final (startDownload_acquire platform (withDownload true (Fin 0) st))))
      as [(_ & _ & _ & ->)|(e & _ & -> & _)].
    + intros _. set_solver.
    + intros Hin. apply list_elem_of_singleton in Hin. discriminate.
  - destruct Hr as (_ & -> & _). intros Hin.
    apply list_elem_of_singleton in Hin. discriminate.
Qed.




(** ** The store after a failed call (C2) *)

(** A call that fails before the downloaded file is handed to processing
    (it ends with the Download Failed alert) leaves the canonical artifact
    untouched and the availability as it was.  In every call the provisional
    path is deleted at most once, as the very first store call and before
    any transfer, and whatever is deleted later is the canonical path. *)
Lemma failure_before_processing_keeps_package (platform : Platform) (st : State) :
  let r := fetchAndInstall platform st in
  (forall message,
      In ("Download Failed", message) (alerts_of (events r)) ->
      st_files (final r) !! mbtilesPath platform = st_files st !! mbtilesPath platform /\
      isAvailable platform (final r) = isAvailable platform st) /\
  (exists pre post,
      store_calls_of (events r) = pre ++ post /\
      (pre = [] \/ pre = [Delete (tempDownloadPath platform)]) /\
      (forall path, In (Delete path) post -> path = mbtilesPath platform)).
Proof.
  cbv zeta. unfold fetchAndInstall.
  destruct (startDownload_traces platform (st_offlineMapAvailable st) st) as [_ Hr].
  destruct (startDownload_acquire_frame platform (withDownload true (Fin 0) st))
    as (Hfiles & _).
  destruct (startDownload_acquire_store_calls platform (withDownload true (Fin 0) st))
    as (pre & post & Hcalls & Hpre & Hpost).
  simpl in Hfiles.
  destruct (outcome (startDownload_acquire platform _)) as [uri|e] eqn:Ho.
  - destruct Hr as (_ & _ & Hal & _ & _ & Hsc). split.
    + intros message Hin. rewrite Hal in Hin. exfalso.
      destruct (processDownloadedFile_verdict platform (st_offlineMapAvailable st) uri
                  (final (startDownload_acquire platform (withDownload true (Fin 0) st))))
        as [(_ & Hv & _)|(e & _ & Hv & _)]; rewrite Hv in Hin;
        destruct Hin as [Hin|[]]; discriminate.
    + exists pre, (post ++ store_calls_of
                     (events (processDownloadedFile platform (st_offlineMapAvailable st) uri
                        (final (startDownload_acquire platform
                                  (withDownload true (Fin 0) st)))))).
      split; [by rewrite Hsc, Hcalls, app_assoc|]. split; [done|].
      intros path Hin. apply in_app_or in Hin as [Hin|Hin].
      * by apply Hpost in Hin.
      * by eapply processDownloadedFile_deletes.
  - destruct Hr as (Hf & _ & _ & _ & Hsc). split.
    + intros message _. split.
      * by rewrite Hf, Hfiles.
      * apply isAvailable_canonical. by rewrite Hf, Hfiles.
    + exists pre, post. split; [by rewrite Hsc|]. split; [done|].
      intros path Hin. by apply Hpost in Hin.
Qed.

(** C2.  The specification has every failed call remove the provisional
    artifact and leave the canonical artifact untouched.  The code does the
    opposite on the failure paths of processing.  When the downloaded file
    is empty or fails the header check, or when the move fails, the
    provisional artifact stays in the store; and in each of these cases, as
    after a failed check of the install, nothing is left at the canonical
    path, whatever was installed there, so that the package is not available
    afterwards.  (The cleanup deletes the canonical path; a delete that
    fails is the only way for an old package to survive.) *)
Theorem failed_processing_removes_package
    (platform : Platform) (st : State) (content : string) :
  st_files st !! tempDownloadPath platform = None \/
    deleteAsync_fault platform (tempDownloadPath platform) = None ->
  written (serve platform GITHUB_RELEASE_URL) = Some content ->
  settles (serve platform GITHUB_RELEASE_URL) = WithUri ->
  includes (take 100 content) "<!DOCTYPE html>" = false ->
  deleteAsync_fault platform (mbtilesPath platform) = None ->
  let r := fetchAndInstall platform st in
  let temp := tempDownloadPath platform in
  let canonical := mbtilesPath platform in
  let package_gone :=
    st_files (final r) !! canonical = None /\ isAvailable platform (final r) = false in
  (startsWith content "STFFtm" = false ->
     failures_of (events r) =
       [if bool_decide (content = EmptyString) then EmptyOrInvalid else NotSQLite] /\
     st_files (final r) !! temp = Some content /\
     package_gone) /\
  (forall e,
     startsWith content "STFFtm" = true ->
     moveAsync_fault platform temp canonical = Some e ->
     failures_of (events r) = [e] /\
     st_files (final r) !! temp = Some content /\
     package_gone) /\
  (startsWith content "STFFtm" = true ->
   moveAsync_fault platform temp canonical = None ->
   st_offlineMapAvailable st = false ->
     failures_of (events r) = [InvalidOrCorrupted] /\
     st_files (final r) !! temp = None /\
     package_gone).
Proof.
  intros Hstale Hwritten Hsettles Hsniff Hdelete. cbv zeta. unfold fetchAndInstall.
  destruct (startDownload_traces platform (st_offlineMapAvailable st) st) as [_ Hr].
  destruct (startDownload_acquire_file platform (withDownload true (Fin 0) st) content
              Hstale Hwritten Hsettles Hsniff) as [Ho Hfile].
  rewrite Ho in Hr. destruct Hr as (_ & Hfiles & _ & Hfail & _).
  rewrite Hfiles, Hfail.
  destruct (processDownloadedFile_failed_store platform (st_offlineMapAvailable st) content
              _ Hfile Hdelete) as (Hbad & Hmove & Hcheck).
  split; [|split].
  - intros H. destruct (Hbad H) as (? & ? & Hgone). repeat split; try done.
    apply isAvailable_absent. by rewrite Hfiles.
  - intros e H1 H2. destruct (Hmove e H1 H2) as (? & ? & Hgone). repeat split; try done.
    apply isAvailable_absent. by rewrite Hfiles.
  - intros H1 H2 H3. destruct (Hcheck H1 H2 H3) as (? & ? & Hgone).
    repeat split; try done.
    apply isAvailable_absent. by rewrite Hfiles.
Qed.

Lemma failed_processing_removes_package_witness :
  let platform := fakePlatform (delivers zeroFile) (delivers zeroFile) tilesDatabase in
  let st := uncheckedState sqliteFile in
  let r := fetchAndInstall platform st in
  (st_files st !! mbtilesPath platform = Some sqliteFile /\
   isAvailable platform st = true) /\
  failed r /\
  failures_of (events r) = [NotSQLite] /\
  st_files (final r) !! tempDownloadPath platform = Some zeroFile /\
  st_files (final r) !! mbtilesPath platform = None /\
  isAvailable platform (final r) = false.
Proof.
  intros platform st r. split; [by split|].
  destruct (failed_processing_removes_package platform st zeroFile
              (or_introl eq_refl) eq_refl eq_refl eq_refl eq_refl) as [H _].
  destruct (H eq_refl) as (H1 & H2 & H3 & H4).
  split; [unfold failed, r; by rewrite H1|].
  by repeat split.
Defined.

(** * Further properties of the code *)

Ltac run_processing_steps :=
  unfold processDownloadedFile, processDownloadedFile_try,
    processDownloadedFile_cleanup, getInfoAsync, deleteAsync, moveAsync;
  unfold_m; simpl;
  repeat (first [rewrite isValidSQLiteDatabase_run | inner_case];
          simpl in *; simplify_eq);
  use_check; simplify_eq; simpl.

Ltac run_check :=
  unfold checkOfflineMapAvailability, initializeDatabase, initializeDatabase_try,
    getInfoAsync, openDatabaseAsync;
  unfold_m; simpl; run; simpl.

(** ** The header check *)

(** X1.  [isValidSQLiteDatabase] never throws and changes nothing; its
    answer is true exactly when the file exists and its first six bytes are
    [STFFtm].  A missing file gives false. *)
Theorem isValidSQLiteDatabase_accepts_six_bytes
    (platform : Platform) (filePath : string) (st : State) :
  let r := isValidSQLiteDatabase platform filePath st in
  final r = st /\
  store_calls_of (events r) = [] /\
  exists answer,
    outcome r = Returned answer /\
    (answer = true <->
     exists rest, st_files st !! filePath = Some ("STFFtm" +:+ rest)).
Proof.
  cbv zeta. rewrite isValidSQLiteDatabase_run.
  destruct (st_files st !! filePath) as [content|] eqn:Hfile; simpl.
  - repeat split. eexists. split; [reflexivity|]. unfold startsWith. split.
    + intros H. apply prefix_split in H. exists (drop 6 content). by rewrite H at 1.
    + intros (rest & [= ->]). apply (prefix_append "STFFtm").
  - repeat split. exists false. split; [reflexivity|].
    split; [discriminate|]. intros (rest & H). discriminate.
Qed.

(** ** The availability check *)

(** X2.  [checkOfflineMapAvailability] only reads: it never throws, leaves
    the store and the download state as they are, deletes and moves nothing
    and shows no alert.  It opens the database only at the canonical path,
    and only when a non-empty file is there. *)
Theorem checkOfflineMapAvailability_only_reads (platform : Platform) (st : State) :
  let r := checkOfflineMapAvailability platform st in
  outcome r = Returned tt /\
  st_files (final r) = st_files st /\
  st_downloading (final r) = st_downloading st /\
  st_downloadProgress (final r) = st_downloadProgress st /\
  store_calls_of (events r) = [] /\
  alerts_of (events r) = [] /\
  (forall path, In (Open path) (events r) ->
     path = mbtilesPath platform /\
     exists content, st_files st !! path = Some content /\ content <> EmptyString).
Proof.
  run_check.
  all: repeat split; try done.
  all: intros; repeat match goal with
                    | H : In _ _ |- _ => simpl in H
                    | H : _ \/ _ |- _ => destruct H
                    | H : False |- _ => destruct H
                    end; simplify_eq; try done.
  all: eexists; split; [eassumption|].
  all: intros ->; discriminate.
Qed.

(** X3.  The database handle after the check.  When the check answers
    true, the handle is the database just opened on the canonical artifact;
    when it answers false because the open or a query failed, the handle is
    cleared; when there is no file or an empty one, the handle is left as it
    was. *)
Theorem checkOfflineMapAvailability_handle (platform : Platform) (st : State) :
  let r := checkOfflineMapAvailability platform st in
  match st_files st !! mbtilesPath platform with
  | Some (String c rest) =>
      if st_offlineMapAvailable (final r) then
        exists database,
          openDatabaseAsync_on platform (String c rest) = Fulfilled (Some database) /\
          st_db (final r) = Some database
      else st_db (final r) = None
  | _ =>
      st_offlineMapAvailable (final r) = false /\
      st_db (final r) = st_db st /\
      forall path, ~ In (Open path) (events r)
  end.
Proof.
  run_check.
  all: try reflexivity.
  all: try (eexists; split; reflexivity).
  all: repeat split; try done.
  all: intros path Hin; repeat destruct Hin as [Hin|Hin]; simplify_eq; done.
Qed.

(** X4.  The check never closes a handle.  Whenever a non-empty file is at
    the canonical path, [checkOfflineMapAvailability] opens the database on
    it, whether or not the cell already holds a handle, and no
    [closeAsync] is called; a second check of the state it leaves opens the
    file once more, again without a close.  The handle that was in the
    cell is overwritten or cleared, never closed. *)
Theorem checkOfflineMapAvailability_reopens_without_close
    (platform : Platform) (st : State) (content : string) :
  st_files st !! mbtilesPath platform = Some content ->
  content <> EmptyString ->
  let first := checkOfflineMapAvailability platform st in
  let second := checkOfflineMapAvailability platform (final first) in
  In (Open (mbtilesPath platform)) (events first) /\
  In (Open (mbtilesPath platform)) (events second) /\
  ~ In Close (events first ++ events second) /\
  (st_db (final first) = None \/
   exists database,
     openDatabaseAsync_on platform content = Fulfilled (Some database) /\
     st_db (final first) = Some database).
Proof.
  intros Hfile Hcontent.
  destruct content as [|c content]; [done|]. clear Hcontent.
  revert Hfile. run_check.
  all: intros; simplify_eq.
  all: repeat split.
  all: try (by left; eauto).
  all: try (right; eexists; split; [eassumption|reflexivity]).
  all: try (simpl; tauto).
  all: try (intros Hin; repeat destruct Hin as [Hin|Hin]; simplify_eq; done).
Qed.

Lemma checkOfflineMapAvailability_reopens_without_close_witness :
  let platform := fakePlatform (delivers acceptedFile) (delivers acceptedFile) tilesDatabase in
  let first := checkOfflineMapAvailability platform (uncheckedState acceptedFile) in
  let second := checkOfflineMapAvailability platform (final first) in
  In (Open "file:///data/kolkata_10km.mbtiles") (events first) /\
  In (Open "file:///data/kolkata_10km.mbtiles") (events second) /\
  ~ In Close (events first ++ events second).
Proof.
  intros platform first second.
  destruct (checkOfflineMapAvailability_reopens_without_close platform
              (uncheckedState acceptedFile) acceptedFile eq_refl ltac:(discriminate))
    as (H1 & H2 & H3 & _).
  by repeat split.
Defined.

(** ** The link pattern *)

Lemma matchHere_None (s : string) :
  matchHere s = None ->
  forall c rest, s = confirmLiteral +:+ String c rest -> c = quote.
Proof.
  intros H c rest ->. destruct (decide (c = quote)) as [|Hc]; [done|].
  by apply matchHere_occurrence with (post := rest) in Hc.
Qed.

Lemma regexMatch_leftmost (s m : string) :
  regexMatch s = Some m ->
  exists pre token post,
    s = pre +:+ confirmLiteral +:+ token +:+ post /\
    m = confirmLiteral +:+ token /\
    token <> EmptyString /\
    ~ In quote (String.list_ascii_of_string token) /\
    (post = EmptyString \/ exists rest, post = String quote rest) /\
    (forall before c after,
        s = before +:+ confirmLiteral +:+ String c after ->
        (String.length before < String.length pre)%nat -> c = quote).
Proof.
  induction s as [|a s IH]; simpl; [discriminate|].
  destruct (matchHere (String a s)) eqn:E.
  - intros [= ->]. apply matchHere_Some in E as (token & post & ? & ? & ? & ? & ?).
    exists EmptyString, token, post. repeat split; try done.
    intros before c after _ Hlt. simpl in Hlt. lia.
  - intros H. destruct (IH H) as (pre & token & post & -> & ? & ? & ? & ? & Hleft).
    exists (String a pre), token, post. repeat split; try done.
    intros [|a' before] c after Heq Hlt.
    + rewrite append_empty_l in Heq. eapply matchHere_None; [exact E|exact Heq].
    + rewrite append_cons in Heq. injection Heq as -> Heq.
      eapply Hleft; [exact Heq|]. simpl in Hlt. lia.
Qed.

Lemma regexMatch_head (s m : string) :
  matchHere s = Some m -> regexMatch s = Some m.
Proof.
  intros H. destruct s as [|a s]; [cbv in H; discriminate H|].
  change (regexMatch (String a s)) with
    (match matchHere (String a s) with
     | Some m => Some m
     | None => regexMatch s
     end).
  by rewrite H.
Qed.

Lemma upToQuote_token (token post : string) :
  ~ In quote (String.list_ascii_of_string token) ->
  post = EmptyString \/ (exists rest, post = String quote rest) ->
  upToQuote (token +:+ post) = token.
Proof.
  intros Hq Hpost. induction token as [|c token IH].
  - rewrite append_empty_l. by destruct Hpost as [->|(rest & ->)].
  - rewrite append_cons. simpl in *.
    destruct (Ascii.eqb c quote) eqn:E.
    + apply Ascii.eqb_eq in E. exfalso. apply Hq. by left.
    + f_equal. apply IH. intros Hin. apply Hq. by right.
Qed.

(** X5.  The link that [extractDirectDownloadLink] returns is the hosting
    domain followed by the leftmost occurrence of
    [uc?export=download&confirm=] that has a token, together with that
    token: the longest run of bytes up to the next double quote or the end
    of the text.  The token is never empty and holds no quote. *)
Theorem extractDirectDownloadLink_leftmost_token (html link : string) :
  extractDirectDownloadLink html = Some link ->
  exists pre token post,
    html = pre +:+ confirmLiteral +:+ token +:+ post /\
    link = "https://drive.google.com/" +:+ confirmLiteral +:+ token /\
    token <> EmptyString /\
    ~ In quote (String.list_ascii_of_string token) /\
    (post = EmptyString \/ exists rest, post = String quote rest) /\
    (forall before c after,
        html = before +:+ confirmLiteral +:+ String c after ->
        (String.length before < String.length pre)%nat -> c = quote).
Proof.
  unfold extractDirectDownloadLink.
  destruct (regexMatch html) as [m|] eqn:E; [|discriminate].
  intros [= <-].
  destruct (regexMatch_leftmost html m E) as (pre & token & post & ? & -> & ?).
  by exists pre, token, post.
Qed.

Lemma extractDirectDownloadLink_leftmost_token_witness :
  exists pre token post,
    confirmPage = pre +:+ confirmLiteral +:+ token +:+ post /\
    "https://drive.google.com/uc?export=download&confirm=XYZ" =
      "https://drive.google.com/" +:+ confirmLiteral +:+ token.
Proof.
  destruct (extractDirectDownloadLink_leftmost_token confirmPage
              "https://drive.google.com/uc?export=download&confirm=XYZ" eq_refl)
    as (pre & token & post & H1 & H2 & _).
  by exists pre, token, post.
Defined.

(** X6.  [extractDirectDownloadLink] misses no link: it answers [null]
    exactly when every occurrence of [uc?export=download&confirm=] in the
    text is followed by a double quote or by the end of the text; and a text
    that begins with the fragment and a quote-free token, closed by a quote
    or by the end, gives that very fragment back on the hosting domain. *)
Theorem extractDirectDownloadLink_finds_every_link :
  (forall html,
      extractDirectDownloadLink html = None <->
      (forall pre c post,
          html = pre +:+ confirmLiteral +:+ String c post -> c = quote)) /\
  (forall c token post,
      ~ In quote (String.list_ascii_of_string (String c token)) ->
      post = EmptyString \/ (exists rest, post = String quote rest) ->
      extractDirectDownloadLink (confirmLiteral +:+ String c token +:+ post) =
      Some ("https://drive.google.com/" +:+ confirmLiteral +:+ String c token)).
Proof.
  split.
  - intros html. unfold extractDirectDownloadLink. split.
    + destruct (regexMatch html) eqn:E; [discriminate|]. intros _.
      by apply regexMatch_None.
    + intros Hall. destruct (regexMatch html) as [m|] eqn:E; [|reflexivity].
      exfalso.
      apply regexMatch_Some in E as (pre & token & post & -> & _ & Hne & Hq & _).
      destruct token as [|c token]; [done|].
      apply Hq. left. eapply Hall. by rewrite append_cons.
  - intros c token post Hq Hpost. unfold extractDirectDownloadLink.
    assert (E : matchHere (confirmLiteral +:+ String c token +:+ post) =
                Some (confirmLiteral +:+ String c token)).
    { unfold matchHere. rewrite prefix_append, drop_append.
      by rewrite (upToQuote_token (String c token) post Hq Hpost). }
    by rewrite (regexMatch_head _ _ E).
Qed.

(** ** Processing *)

(** X7.  [processDownloadedFile] never throws and starts no transfer, and
    it shows exactly one alert: either the success alert, with no failure
    logged and only when the captured availability is true, or the
    Processing Failed alert of the one failure it caught. *)
Theorem processDownloadedFile_one_alert
    (platform : Platform) (offlineMapAvailable : bool) (filePath : string) (st : State) :
  let r := processDownloadedFile platform offlineMapAvailable filePath st in
  outcome r = Returned tt /\
  transfers_of (events r) = [] /\
  ((offlineMapAvailable = true /\
    alerts_of (events r) = [successAlert] /\
    failures_of (events r) = []) \/
   (exists e,
      failures_of (events r) = [e] /\
      alerts_of (events r) = [("Processing Failed", processingErrorMessage e)])).
Proof.
  cbv zeta.
  destruct (processDownloadedFile_frame platform offlineMapAvailable filePath st)
    as [Ho Ht].
  destruct (processDownloadedFile_verdict platform offlineMapAvailable filePath st)
    as [(? & ? & ? & _)|(e & ? & ? & _)].
  - split; [done|]. split; [done|]. by left.
  - split; [done|]. split; [done|]. right. by exists e.
Qed.

(** X8.  A missing or empty downloaded file is refused before its header is
    read: the failure is the empty-file error, nothing is moved, no progress
    is reported and the alert says that the file is empty. *)
Theorem processDownloadedFile_refuses_empty
    (platform : Platform) (offlineMapAvailable : bool) (filePath : string) (st : State) :
  st_files st !! filePath = None \/ st_files st !! filePath = Some EmptyString ->
  let r := processDownloadedFile platform offlineMapAvailable filePath st in
  failures_of (events r) = [EmptyOrInvalid] /\
  alerts_of (events r) =
    [("Processing Failed",
      "Failed to process the downloaded map." +:+ newline +:+
      "The downloaded file is empty.")] /\
  progress_of (events r) = [] /\
  (forall from to, ~ In (Move from to) (store_calls_of (events r))).
Proof.
  intros Hfile. cbv zeta.
  run_processing_steps.
  all: try (destruct Hfile; congruence).
  all: try (destruct Hfile as [Hfile|Hfile]; simplify_eq; simpl in *; discriminate).
  all: close_trace.
  all: repeat split; try done.
  all: intros from to Hin; repeat destruct Hin as [Hin|Hin]; simplify_eq; done.
Qed.

Lemma processDownloadedFile_refuses_empty_witness :
  let platform := fakePlatform (delivers EmptyString) (delivers EmptyString) tilesDatabase in
  failures_of (events (processDownloadedFile platform false
                         (tempDownloadPath platform) emptyState)) = [EmptyOrInvalid].
Proof.
  intros platform.
  apply (processDownloadedFile_refuses_empty platform false (tempDownloadPath platform)
           emptyState (or_introl eq_refl)).
Defined.

(** X9.  After a failure in [processDownloadedFile] the cleanup has emptied
    the canonical path, unless deleting it fails: no file is left there,
    whatever was there before, and the package is not available. *)
Theorem processDownloadedFile_failure_empties_canonical
    (platform : Platform) (offlineMapAvailable : bool) (filePath : string) (st : State) :
  let r := processDownloadedFile platform offlineMapAvailable filePath st in
  failures_of (events r) <> [] ->
  deleteAsync_fault platform (mbtilesPath platform) = None ->
  st_files (final r) !! mbtilesPath platform = None /\
  isAvailable platform (final r) = false.
Proof.
  cbv zeta. intros Hfail Hdelete.
  assert (st_files (final (processDownloadedFile platform offlineMapAvailable filePath st))
            !! mbtilesPath platform = None) as Hgone.
  { revert Hfail. run_processing_steps.
    all: close_trace.
    all: intros Hfail; try done.
    all: try congruence.
    all: rewrite ?lookup_delete_eq; try done. }
  split; [exact Hgone|]. by apply isAvailable_absent.
Qed.

Lemma processDownloadedFile_failure_empties_canonical_witness :
  let platform := fakePlatform (delivers zeroFile) (delivers zeroFile) tilesDatabase in
  let st := installedState sqliteFile in
  st_files st !! mbtilesPath platform = Some sqliteFile /\
  st_files (final (processDownloadedFile platform true (tempDownloadPath platform) st))
    !! mbtilesPath platform = None.
Proof.
  intros platform st. split; [reflexivity|].
  apply (processDownloadedFile_failure_empties_canonical platform true
           (tempDownloadPath platform) st).
  - vm_compute. discriminate.
  - reflexivity.
Defined.

Ltac use_check_keep :=
  repeat match goal with
    | H : checkOfflineMapAvailability ?p ?s = Build_Run _ ?f _ |- _ =>
        lazymatch goal with
        | _ : st_files f = _ |- _ => fail
        | _ => idtac
        end;
        let F := fresh "F" in
        pose proof (checkOfflineMapAvailability_frame p s) as F;
        rewrite H in F; simpl in F;
        destruct F as (? & ? & ? & ? & ? & ? & ? & ? & ?)
    end.

Ltac run_processing_keep :=
  unfold processDownloadedFile, processDownloadedFile_try,
    processDownloadedFile_cleanup, getInfoAsync, deleteAsync, moveAsync;
  unfold_m; simpl;
  repeat (first [rewrite isValidSQLiteDatabase_run | inner_case];
          simpl in *; simplify_eq);
  use_check_keep; simplify_eq; simpl.

Lemma accepted_not_empty (content : string) :
  startsWith content "STFFtm" = true -> content <> EmptyString.
Proof. by intros H ->. Qed.

(** X10.  The install.  With the captured availability true and no fault,
    a downloaded file that passes the header check replaces whatever is at
    the canonical path: afterwards the canonical path holds exactly the
    downloaded bytes, the file is gone from where it was downloaded, every
    other file is as before, progress 1.0 has been reported and the success
    alert is shown. *)
Theorem processDownloadedFile_installs
    (platform : Platform) (filePath content : string) (st : State) :
  st_files st !! filePath = Some content ->
  startsWith content "STFFtm" = true ->
  filePath <> mbtilesPath platform ->
  deleteAsync_fault platform (mbtilesPath platform) = None ->
  moveAsync_fault platform filePath (mbtilesPath platform) = None ->
  let r := processDownloadedFile platform true filePath st in
  st_files (final r) = <[mbtilesPath platform := content]> (delete filePath (st_files st)) /\
  alerts_of (events r) = [successAlert] /\
  failures_of (events r) = [] /\
  progress_of (events r) = [Fin 1].
Proof.
  intros Hfile Hok Hne Hdelete Hmove. cbv zeta.
  pose proof (accepted_not_empty content Hok) as Hcontent.
  run_processing_steps.
  all: try (rewrite Hok in *; discriminate).
  all: rewrite ?lookup_delete_ne in * by done; simplify_eq.
  all: rewrite ?lookup_insert_eq in *; simplify_eq.
  all: try match goal with
         | H : ?c <> EmptyString |- _ => destruct c; simpl in *; congruence
         end.
  all: close_trace.
  all: repeat split; try done.
  all: match goal with H : st_files _ = _ |- st_files _ = _ => rewrite H end.
  all: try reflexivity.
  all: apply map_eq; intros path.
  all: destruct (decide (path = mbtilesPath platform)) as [->|];
         [by rewrite !lookup_insert_eq|rewrite !lookup_insert_ne by done].
  all: destruct (decide (path = filePath)) as [->|];
         [by rewrite !lookup_delete_eq|rewrite !lookup_delete_ne by done].
  all: reflexivity.
Qed.

Lemma processDownloadedFile_installs_witness :
  let platform := fakePlatform (delivers acceptedFile) (delivers acceptedFile) tilesDatabase in
  let st := staleState acceptedFile in
  st_files (final (processDownloadedFile platform true (tempDownloadPath platform) st))
  = <[mbtilesPath platform := acceptedFile]>
      (delete (tempDownloadPath platform) (st_files st)).
Proof.
  intros platform st.
  by apply (processDownloadedFile_installs platform (tempDownloadPath platform)
              acceptedFile st).
Defined.

(** X11.  When [processDownloadedFile] ends with the success alert, the
    availability it leaves in the state is the one a fresh check of the
    store computes: the install is the last change to the store and the
    check has run after it.  (The alert itself does not depend on that
    availability.) *)
Theorem processDownloadedFile_success_agrees_with_check
    (platform : Platform) (offlineMapAvailable : bool) (filePath : string) (st : State) :
  let r := processDownloadedFile platform offlineMapAvailable filePath st in
  alerts_of (events r) = [successAlert] ->
  st_offlineMapAvailable (final r) = isAvailable platform (final r).
Proof.
  cbv zeta.
  run_processing_keep.
  all: close_trace.
  all: intros Halert; try discriminate.
  all: match goal with
       | H : checkOfflineMapAvailability ?p ?s = _, F : st_files _ = _ |- _ =>
           transitivity (isAvailable p s);
           [unfold isAvailable; rewrite H; reflexivity
           |apply isAvailable_canonical; simpl; by rewrite F]
       end.
Qed.

Lemma processDownloadedFile_success_agrees_with_check_witness :
  let platform := fakePlatform (delivers acceptedFile) (delivers acceptedFile) tilesDatabase in
  let r := processDownloadedFile platform true (tempDownloadPath platform)
             (staleState acceptedFile) in
  st_offlineMapAvailable (final r) = isAvailable platform (final r).
Proof.
  intros platform r.
  by apply (processDownloadedFile_success_agrees_with_check platform true
              (tempDownloadPath platform) (staleState acceptedFile)).
Defined.

(** ** The whole invocation *)

Ltac run_acquire_steps :=
  unfold startDownload_acquire, getInfoAsync, deleteAsync, downloadAsync,
    readAsStringAsync;
  unfold_m; simpl;
  repeat (first [ rewrite forEach_reports
                | rewrite afterReports_files
                | rewrite lookup_insert_eq
                | inner_case ];
          simpl in *; simplify_eq).

(** X12.  Every invocation of [startDownload] shows exactly one alert and
    logs at most one failure: the success alert with no failure, or the
    Download Failed or the Processing Failed alert of the one failure. *)
Theorem startDownload_one_alert
    (platform : Platform) (offlineMapAvailable : bool) (st : State) :
  let r := startDownload platform offlineMapAvailable st in
  (alerts_of (events r) = [successAlert] /\ failures_of (events r) = []) \/
  (exists e,
      failures_of (events r) = [e] /\
      (alerts_of (events r) = [("Download Failed", downloadErrorMessage e)] \/
       alerts_of (events r) = [("Processing Failed", processingErrorMessage e)])).
Proof.
  cbv zeta.
  destruct (startDownload_traces platform offlineMapAvailable st) as [_ H].
  destruct (outcome (startDownload_acquire platform _)) as [uri|e].
  - destruct H as (_ & _ & -> & -> & _).
    destruct (processDownloadedFile_verdict platform offlineMapAvailable uri
                (final (startDownload_acquire platform (withDownload true (Fin 0) st))))
      as [(_ & ? & ? & _)|(e & ? & ? & _)].
    + by left.
    + right. exists e. split; [done|]. by right.
  - destruct H as (_ & -> & -> & _). right. exists e. split; [done|]. by left.
Qed.

(** X14.  A stale provisional file that cannot be deleted blocks the
    download: no transfer is started, the store is left as it is and the
    Download Failed alert carries the exception of the delete. *)
Theorem stale_file_blocks_download
    (platform : Platform) (st : State) (stale : string) (e : Exception) :
  st_files st !! tempDownloadPath platform = Some stale ->
  deleteAsync_fault platform (tempDownloadPath platform) = Some e ->
  let r := fetchAndInstall platform st in
  transfers_of (events r) = [] /\
  st_files (final r) = st_files st /\
  failures_of (events r) = [e] /\
  alerts_of (events r) = [("Download Failed", downloadErrorMessage e)].
Proof.
  intros Hstale Hfault. cbv zeta. unfold fetchAndInstall.
  destruct (startDownload_traces platform (st_offlineMapAvailable st) st) as [Ht H].
  assert (Ha : startDownload_acquire platform (withDownload true (Fin 0) st) =
               Build_Run (Thrown e) (withDownload true (Fin 0) st)
                 [Delete (tempDownloadPath platform)]).
  { unfold startDownload_acquire, getInfoAsync, deleteAsync. unfold_m. simpl.
    by rewrite Hstale, Hfault. }
  rewrite Ha in H, Ht. simpl in H. destruct H as (-> & -> & -> & _).
  by rewrite Ht.
Qed.

Lemma stale_file_blocks_download_witness :
  let platform := lockedPlatform (delivers acceptedFile) tilesDatabase
                    "file:///data/kolkata_10km_download.mbtiles" in
  let r := fetchAndInstall platform (staleState plainPage) in
  transfers_of (events r) = [] /\ st_files (final r) = st_files (staleState plainPage).
Proof.
  intros platform r.
  destruct (stale_file_blocks_download platform (staleState plainPage) plainPage
              (Error "file is locked") eq_refl eq_refl) as (H1 & H2 & _).
  by split.
Defined.

(** X15.  What is handed to processing was written by this invocation.
    When [startDownload] reaches [processDownloadedFile], the first transfer
    has written the provisional file, and the file processed is that
    content or, after a retry, what the retry wrote over it (the host page
    itself if the retry wrote nothing): never a stale file of an earlier
    call. *)
Theorem processed_file_is_fresh (platform : Platform) (st : State) (uri : string) :
  let a := startDownload_acquire platform st in
  outcome a = Returned uri ->
  uri = tempDownloadPath platform /\
  exists first,
    written (serve platform GITHUB_RELEASE_URL) = Some first /\
    (st_files (final a) !! uri = Some first \/
     exists link,
       extractDirectDownloadLink first = Some link /\
       st_files (final a) !! uri =
         Some (default first (written (serve platform link)))).
Proof.
  cbv zeta. run_acquire_steps.
  all: intros [= <-] || intros [=].
  all: rewrite ?afterReports_files; simpl.
  all: rewrite ?lookup_insert_eq.
  all: split; [reflexivity|].
  all: try (rewrite lookup_delete_eq in *; discriminate).
  all: try congruence.
  all: eexists; split; [reflexivity|].
  all: first [ by left
             | right; eexists; split; [eassumption|];
               match goal with
               | H : written _ = _ |- _ => rewrite H; reflexivity
               end ].
Qed.

Lemma processed_file_is_fresh_witness :
  let platform := fakePlatform (delivers acceptedFile) (delivers acceptedFile) tilesDatabase in
  exists first,
    written (serve platform GITHUB_RELEASE_URL) = Some first /\
    outcome (startDownload_acquire platform (staleState plainPage)) =
      Returned (tempDownloadPath platform).
Proof.
  intros platform.
  destruct (processed_file_is_fresh platform (staleState plainPage)
              (tempDownloadPath platform) eq_refl) as (_ & first & H & _).
  exists first. by split.
Defined.

(** ** The delete handler *)

Ltac run_delete :=
  unfold deletePackage, deleteOfflineMap_onPress, closeAsync, getInfoAsync, deleteAsync;
  unfold_m; simpl; run; simpl.

(** X16.  Without a fault, [deletePackage] leaves no package: the canonical
    artifact is gone and every other file is as before, the handle is
    cleared, the availability is false, also for a fresh check, and the
    success alert is shown. *)
Theorem deletePackage_removes_package (platform : Platform) (st : State) :
  match st_db st with
  | Some database => closeAsync_fault database = None
  | None => True
  end ->
  deleteAsync_fault platform (mbtilesPath platform) = None ->
  let r := deletePackage platform st in
  st_files (final r) = delete (mbtilesPath platform) (st_files st) /\
  st_db (final r) = None /\
  st_offlineMapAvailable (final r) = false /\
  isAvailable platform (final r) = false /\
  alerts_of (events r) = [("Success", "Offline map deleted successfully")].
Proof.
  intros Hclose Hdelete. cbv zeta.
  assert (H : st_files (final (deletePackage platform st)) =
                delete (mbtilesPath platform) (st_files st) /\
              st_db (final (deletePackage platform st)) = None /\
              st_offlineMapAvailable (final (deletePackage platform st)) = false /\
              alerts_of (events (deletePackage platform st)) =
                [("Success", "Offline map deleted successfully")]).
  { run_delete; try congruence.
    all: repeat split; try done.
    all: symmetry; by apply delete_id. }
  destruct H as (Hfiles & Hdb & Hflag & Halert).
  repeat split; try done.
  apply isAvailable_absent. by rewrite Hfiles, lookup_delete_eq.
Qed.

Lemma deletePackage_removes_package_witness :
  let platform := fakePlatform (delivers plainPage) (delivers plainPage) tilesDatabase in
  let r := deletePackage platform (installedState sqliteFile) in
  st_files (final r) = delete (mbtilesPath platform) (st_files (installedState sqliteFile)) /\
  isAvailable platform (final r) = false.
Proof.
  intros platform r.
  destruct (deletePackage_removes_package platform (installedState sqliteFile)
              eq_refl eq_refl) as (H1 & _ & _ & H2 & _).
  by split.
Defined.

(** X17.  When the handle cannot be closed, [deletePackage] stops there:
    the delete is not attempted, the whole state is left as it was and the
    error alert is shown. *)
Theorem deletePackage_stops_when_close_fails
    (platform : Platform) (st : State) (database : Database) (e : Exception) :
  st_db st = Some database ->
  closeAsync_fault database = Some e ->
  let r := deletePackage platform st in
  final r = st /\
  store_calls_of (events r) = [Close] /\
  alerts_of (events r) = [("Error", "Failed to delete offline map")].
Proof.
  intros Hdb Hclose. cbv zeta.
  unfold deletePackage, deleteOfflineMap_onPress, closeAsync. rewrite Hdb.
  unfold_m. simpl. rewrite Hclose. simpl. by repeat split.
Qed.

Lemma deletePackage_stops_when_close_fails_witness :
  let platform := fakePlatform (delivers plainPage) (delivers plainPage) busyDatabase in
  let st := {| st_files := st_files (installedState sqliteFile);
               st_downloading := false; st_downloadProgress := Fin 0;
               st_offlineMapAvailable := true; st_db := Some busyDatabase |} in
  final (deletePackage platform st) = st.
Proof.
  intros platform st.
  by apply (deletePackage_stops_when_close_fails platform st busyDatabase
              (Error "database is busy") eq_refl eq_refl).
Defined.

(** X18.  When the file cannot be deleted, [deletePackage] has already
    closed and cleared the handle: the store and the availability flag are
    left as they were, the handle is null and the error alert is shown. *)
Theorem deletePackage_keeps_file_when_delete_fails
    (platform : Platform) (st : State) (content : string) (e : Exception) :
  match st_db st with
  | Some database => closeAsync_fault database = None
  | None => True
  end ->
  st_files st !! mbtilesPath platform = Some content ->
  deleteAsync_fault platform (mbtilesPath platform) = Some e ->
  let r := deletePackage platform st in
  st_files (final r) = st_files st /\
  st_offlineMapAvailable (final r) = st_offlineMapAvailable st /\
  st_db (final r) = None /\
  alerts_of (events r) = [("Error", "Failed to delete offline map")].
Proof.
  intros Hclose Hfile Hdelete. cbv zeta.
  run_delete; try congruence.
  all: by repeat split.
Qed.

Lemma deletePackage_keeps_file_when_delete_fails_witness :
  let platform := lockedPlatform (delivers plainPage) tilesDatabase
                    "file:///data/kolkata_10km.mbtiles" in
  let r := deletePackage platform (installedState sqliteFile) in
  st_files (final r) = st_files (installedState sqliteFile) /\
  st_db (final r) = None.
Proof.
  intros platform r.
  destruct (deletePackage_keeps_file_when_delete_fails platform
              (installedState sqliteFile) sqliteFile (Error "file is locked")
              eq_refl eq_refl eq_refl) as (H1 & _ & H2 & _).
  by split.
Defined.

(** ** Start-up and location *)

Ltac unfold_sm :=
  unfold mbind, SM_bind, mret, SM_ret, sbind, sret, semit, stry_catch, await,
    lift, setLocation, setLocationPermission, setMapError in *.

Lemma kolkataRegion_in_bounds (delta : Q) :
  isLocationInBounds (Region.latitude (kolkataRegion delta))
                     (Region.longitude (kolkataRegion delta)) = true.
Proof. reflexivity. Qed.

(** X19.  [initializeApp] never throws and always leaves a location set,
    whatever the location collaborator does: the reported position with the
    close-up deltas when the permission is granted and the position
    arrives, and otherwise the centre of Kolkata with the wide deltas, which
    the region gate accepts.  It changes no file. *)
Theorem initializeApp_sets_location
    (platform : Platform) (service : LocationService) (sc : Screen) :
  let r := initializeApp platform service sc in
  s_outcome r = Returned tt /\
  st_files (sc_core (s_final r)) = st_files (sc_core sc) /\
  exists l,
    sc_location (s_final r) = Some l /\
    ((l = kolkataRegion (5 # 100) /\
      isLocationInBounds (Region.latitude l) (Region.longitude l) = true) \/
     (requestForegroundPermissionsAsync service = Fulfilled "granted" /\
      exists lat lng,
        getCurrentPositionAsync service = Fulfilled (lat, lng) /\
        l = {| Region.latitude := lat; Region.longitude := lng;
               Region.latitudeDelta := Fin (1 # 100);
               Region.longitudeDelta := Fin (1 # 100) |})).
Proof.
  cbv zeta. unfold initializeApp, getCurrentLocation. unfold_sm. simpl.
  destruct (requestForegroundPermissionsAsync service) as [status|e] eqn:Hp; simpl.
  2: { repeat split. eexists. split; [reflexivity|]. by left. }
  pose proof (checkOfflineMapAvailability_frame platform) as Hcheck.
  case_bool_decide as Hs; [subst status|].
  - destruct (getCurrentPositionAsync service) as [[lat lng]|e] eqn:Hg; simpl.
    + match goal with |- context [checkOfflineMapAvailability platform ?s] =>
        specialize (Hcheck s); destruct (checkOfflineMapAvailability platform s)
      end. simpl in *. destruct Hcheck as (-> & Hfiles & _). simpl. rewrite Hfiles.
      repeat split. eexists. split; [reflexivity|]. right. split; [done|].
      by exists lat, lng.
    + match goal with |- context [checkOfflineMapAvailability platform ?s] =>
        specialize (Hcheck s); destruct (checkOfflineMapAvailability platform s)
      end. simpl in *. destruct Hcheck as (-> & Hfiles & _). simpl. rewrite Hfiles.
      repeat split. eexists. split; [reflexivity|]. by left.
  - match goal with |- context [checkOfflineMapAvailability platform ?s] =>
      specialize (Hcheck s); destruct (checkOfflineMapAvailability platform s)
    end. simpl in *. destruct Hcheck as (-> & Hfiles & _). simpl. rewrite Hfiles.
    repeat split. eexists. split; [reflexivity|]. by left.
Qed.

(** X20.  Start-up and availability.  When the permission request settles,
    [initializeApp] ends with the availability check: the pipeline state it
    leaves is the one [checkOfflineMapAvailability] produces from the state
    before, and no map error is set.  When the permission request is
    rejected the check is skipped: the pipeline state, and with it the
    availability flag, stays as it was, and the map error is set. *)
Theorem initializeApp_checks_availability
    (platform : Platform) (service : LocationService) (sc : Screen) :
  let r := initializeApp platform service sc in
  match requestForegroundPermissionsAsync service with
  | Fulfilled status =>
      sc_core (s_final r) = final (checkOfflineMapAvailability platform (sc_core sc)) /\
      st_offlineMapAvailable (sc_core (s_final r)) = isAvailable platform (sc_core sc) /\
      sc_locationPermission (s_final r) = status /\
      sc_mapError (s_final r) = sc_mapError sc
  | Rejected e =>
      sc_core (s_final r) = sc_core sc /\
      sc_mapError (s_final r) = Some "Failed to initialize app" /\
      forall path, ~ In (Core (Open path)) (s_events r)
  end.
Proof.
  cbv zeta. unfold initializeApp, getCurrentLocation, isAvailable. unfold_sm. simpl.
  destruct (requestForegroundPermissionsAsync service) as [status|e] eqn:Hp; simpl.
  2: { repeat split. intros path Hin.
       repeat destruct Hin as [Hin|Hin]; simplify_eq; done. }
  case_bool_decide as Hs; [subst status|].
  - destruct (getCurrentPositionAsync service) as [[lat lng]|e] eqn:Hg; simpl.
    all: destruct (checkOfflineMapAvailability platform (sc_core sc)) as [o f t] eqn:E;
      simpl; pose proof (checkOfflineMapAvailability_frame platform (sc_core sc)) as F;
      rewrite E in F; simpl in F; destruct F as (-> & _); simpl; by repeat split.
  - simpl.
    destruct (checkOfflineMapAvailability platform (sc_core sc)) as [o f t] eqn:E;
      simpl; pose proof (checkOfflineMapAvailability_frame platform (sc_core sc)) as F;
      rewrite E in F; simpl in F; destruct F as (-> & _); simpl; by repeat split.
Qed.

(** ** The settings screen *)

Lemma forEach_cons {A} (x : A) (l : list A) (f : A -> M unit) (st : State) :
  forEach (x :: l) f st =
  match f x st with
  | Build_Run (Returned _) st1 t1 =>
      match forEach l f st1 with
      | Build_Run o st2 t2 => Build_Run o st2 (t1 ++ t2)
      end
  | Build_Run (Thrown e) st1 t1 => Build_Run (Thrown e) st1 t1
  end.
Proof. reflexivity. Qed.

Section Settings.
Context (platform : Platform) (host : SettingsHost).

Lemma deleteAsync_run (path : string) (st : State) :
  deleteAsync platform path st =
  match deleteAsync_fault platform path with
  | Some e => Build_Run (Thrown e) st [Delete path]
  | None =>
      Build_Run (Returned tt)
        {| st_files := delete path (st_files st);
           st_downloading := st_downloading st;
           st_downloadProgress := st_downloadProgress st;
           st_offlineMapAvailable := st_offlineMapAvailable st;
           st_db := st_db st |}
        [Delete path]
  end.
Proof. unfold deleteAsync. unfold_m. by destruct (deleteAsync_fault platform path). Qed.

Lemma forEach_delete_frame (l : list string) (st : State) :
  let r := forEach l (fun file => deleteAsync platform (documentDirectory platform +:+ file)) st in
  (forall name, ~ In name l ->
     st_files (final r) !! (documentDirectory platform +:+ name) =
     st_files st !! (documentDirectory platform +:+ name)) /\
  st_downloading (final r) = st_downloading st /\
  st_downloadProgress (final r) = st_downloadProgress st /\
  st_offlineMapAvailable (final r) = st_offlineMapAvailable st /\
  st_db (final r) = st_db st /\
  alerts_of (events r) = [] /\
  transfers_of (events r) = [].
Proof.
  cbv zeta. revert st. induction l as [|file l IH]; intros st.
  - by repeat split.
  - rewrite forEach_cons, deleteAsync_run.
    destruct (deleteAsync_fault platform (documentDirectory platform +:+ file)) as [e|] eqn:Hf.
    + by repeat split.
    + match goal with |- context [forEach l ?f ?s] =>
        specialize (IH s); destruct (forEach l f s) as [o s' t]
      end.
      simpl in *. destruct IH as (Hother & -> & -> & -> & -> & Ha & Ht).
      autorewrite with trace. rewrite Ha, Ht.
      split; [|by repeat split].
      intros name Hname. rewrite Hother by tauto.
      apply lookup_delete_ne. intros Heq. apply (inj (String.app _)) in Heq. tauto.
Qed.

Lemma forEach_delete_effect (l : list string) (st : State) :
  (forall file, In file l ->
      deleteAsync_fault platform (documentDirectory platform +:+ file) = None) ->
  let r := forEach l (fun file => deleteAsync platform (documentDirectory platform +:+ file)) st in
  outcome r = Returned tt /\
  forall file, In file l ->
    st_files (final r) !! (documentDirectory platform +:+ file) = None.
Proof.
  cbv zeta. revert st. induction l as [|file l IH]; intros st Hall.
  - split; [done|]. by intros ? [].
  - rewrite forEach_cons, deleteAsync_run.
    rewrite (Hall file (or_introl eq_refl)).
    match goal with |- context [forEach l ?f ?s] =>
      pose proof (forEach_delete_frame l s) as Hframe;
      specialize (IH s); destruct (forEach l f s) as [o s' t]
    end.
    simpl in *. destruct Hframe as (Hother & _).
    destruct IH as (-> & Hgone); [intros f' Hin; apply Hall; by right|].
    split; [done|]. intros f' [<-|Hin]; [|by apply Hgone].
    destruct (in_dec String.string_dec file l) as [Hin|Hnot]; [by apply Hgone|].
    rewrite Hother by done. apply lookup_delete_eq.
Qed.

Lemma isTemporary_filter (l : list string) (name : string) :
  isTemporary name = false -> ~ In name (List.filter isTemporary l).
Proof. intros H Hin. apply filter_In in Hin as [_ Hin]. congruence. Qed.

(** X21.  Clearing the cache keeps what is not temporary.  Whatever the
    directory listing says and whichever delete fails, a file whose name
    neither ends in [.zip] or [.tmp] nor contains [temp] is left untouched;
    in particular the installed package, the database copy and the
    provisional download of the pipeline stay in place.  No state cell
    changes and exactly one alert is shown. *)
Theorem clearCache_keeps_other_files (st : State) :
  let r := clearCache_onPress platform host st in
  outcome r = Returned tt /\
  (forall name, isTemporary name = false ->
     st_files (final r) !! (documentDirectory platform +:+ name) =
     st_files st !! (documentDirectory platform +:+ name)) /\
  isTemporary "kolkata_10km.mbtiles" = false /\
  isTemporary "kolkata_map.db" = false /\
  isTemporary "kolkata_10km_download.mbtiles" = false /\
  st_offlineMapAvailable (final r) = st_offlineMapAvailable st /\
  st_db (final r) = st_db st /\
  (alerts_of (events r) = [("Success", "Cache cleared successfully")] \/
   alerts_of (events r) = [("Error", "Could not clear cache")]).
Proof.
  cbv zeta. unfold clearCache_onPress, readDirectoryAsync. unfold_m. simpl.
  destruct (readDirectoryAsync_of host (st_files st)) as [names|e]; simpl.
  2: { repeat split; try done. by right. }
  pose proof (forEach_delete_frame (List.filter isTemporary names) st) as H.
  destruct (forEach _ _ st) as [[[]|e] s t]; simpl in *.
  all: destruct H as (Hother & _ & _ & -> & -> & Ha & _).
  all: autorewrite with trace; simpl; rewrite Ha; simpl.
  all: repeat split; try done.
  all: try (intros name Hname; apply Hother; by apply isTemporary_filter).
  - by left.
  - by right.
Qed.

(** X22.  Clearing the cache removes what is temporary.  When the listing
    succeeds and no delete fails, every listed file whose name ends in
    [.zip] or [.tmp] or contains [temp] is gone afterwards and the success
    alert is shown; the archive [kolkata_map.zip] of the earlier revision
    is such a name. *)
Theorem clearCache_removes_temporary_files (st : State) (names : list string) :
  readDirectoryAsync_of host (st_files st) = Fulfilled names ->
  (forall file, In file names -> isTemporary file = true ->
      deleteAsync_fault platform (documentDirectory platform +:+ file) = None) ->
  let r := clearCache_onPress platform host st in
  (forall file, In file names -> isTemporary file = true ->
     st_files (final r) !! (documentDirectory platform +:+ file) = None) /\
  isTemporary "kolkata_map.zip" = true /\
  alerts_of (events r) = [("Success", "Cache cleared successfully")].
Proof.
  intros Hlist Hfault. cbv zeta.
  unfold clearCache_onPress, readDirectoryAsync. unfold_m. simpl. rewrite Hlist. simpl.
  pose proof (forEach_delete_effect (List.filter isTemporary names) st) as H.
  pose proof (forEach_delete_frame (List.filter isTemporary names) st) as F.
  destruct (forEach _ _ st) as [o s t]; simpl in *.
  destruct F as (_ & _ & _ & _ & _ & Ha & _).
  destruct H as (-> & Hgone).
  { intros file Hin. apply filter_In in Hin as [Hin Htemp]. by apply Hfault. }
  simpl. autorewrite with trace. simpl. rewrite Ha. simpl.
  repeat split; try done.
  intros file Hin Htemp. apply Hgone. apply filter_In. by split.
Qed.

(** X23.  [checkStorageUsage] only reads the store and shows one Storage
    Usage alert; it says that no offline maps are stored exactly when
    neither the package nor the database copy holds a byte. *)
Theorem checkStorageUsage_reports_empty (st : State) :
  let r := checkStorageUsage platform host st in
  let stored path := default EmptyString (st_files st !! (documentDirectory platform +:+ path)) in
  outcome r = Returned tt /\
  final r = st /\
  exists message,
    alerts_of (events r) = [("Storage Usage", message)] /\
    (message = "No offline maps are currently stored." <->
     stored "kolkata_10km.mbtiles" = EmptyString /\
     stored "kolkata_map.db" = EmptyString).
Proof.
  cbv zeta. unfold checkStorageUsage, getInfoAsync, sizeOf. unfold_m. simpl.
  destruct (st_files st !! (documentDirectory platform +:+ "kolkata_10km.mbtiles"))
    as [package|]; simpl;
  destruct (st_files st !! (documentDirectory platform +:+ "kolkata_map.db"))
    as [copy|]; simpl.
  all: match goal with
       | |- context [?n =? 0] => destruct (Z.eqb_spec n 0) as [Hzero|Hzero]
       | _ => idtac
       end; simpl.
  all: (split; [done|]); (split; [by destruct st|]).
  all: eexists; (split; [reflexivity|]).
  all: split; [intros Hmessage|intros [Hpackage Hcopy]]; try done.
  all: try (exfalso; by apply (f_equal (fun s => String.prefix "T" s)) in Hmessage).
  all: try (subst; simpl in Hzero; lia).
  all: repeat match goal with
       | c : string |- _ => destruct c; simpl in *; try lia
       end; done.
Qed.

End Settings.

Lemma clearCache_removes_temporary_files_witness :
  let platform := fakePlatform (delivers plainPage) (delivers plainPage) tilesDatabase in
  let host := listingHost ["kolkata_10km.mbtiles"; "kolkata_map.zip"] in
  let r := clearCache_onPress platform host clutteredState in
  st_files (final r) !! "file:///data/kolkata_map.zip" = None /\
  alerts_of (events r) = [("Success", "Cache cleared successfully")].
Proof.
  intros platform host r.
  destruct (clearCache_removes_temporary_files platform host clutteredState
              ["kolkata_10km.mbtiles"; "kolkata_map.zip"] eq_refl
              (fun _ _ _ => eq_refl)) as (H1 & _ & H2).
  split; [|done].
  apply (H1 "kolkata_map.zip"); [right; by left|reflexivity].
Defined.

(** ** The earlier revision of the map screen *)

Ltac run_legacy_check :=
  unfold Legacy.checkOfflineMapAvailability, Legacy.initializeDatabase,
    Legacy.copyAsync, Legacy.openDatabaseAsync, getInfoAsync;
  unfold_m; simpl; run; simpl.

Ltac frame_done :=
  repeat split; try reflexivity; try (eexists; reflexivity).

Section LegacyFrames.

Context (platform : Platform) (host : Legacy.Host).

Lemma legacy_paths_distinct : Legacy.dbPath platform <> Legacy.mbtilesPath platform.
Proof.
  unfold Legacy.dbPath, Legacy.mbtilesPath. intros H.
  apply (inj (String.app _)) in H. discriminate.
Qed.

Lemma legacy_check_frame (st : State) :
  let r := Legacy.checkOfflineMapAvailability platform host st in
  outcome r = Returned tt /\
  (forall path, path <> Legacy.dbPath platform ->
     st_files (final r) !! path = st_files st !! path) /\
  st_downloading (final r) = st_downloading st /\
  st_downloadProgress (final r) = st_downloadProgress st /\
  progress_of (events r) = [] /\
  transfers_of (events r) = [] /\
  alerts_of (events r) = [] /\
  st_offlineMapAvailable (final r) =
    st_offlineMapAvailable st ||
    match st_files st !! Legacy.mbtilesPath platform with
    | Some content => negb (bool_decide (content = EmptyString))
    | None => false
    end.
Proof.
  run_legacy_check.
  all: repeat split; try done.
  all: try (intros path Hpath; by rewrite lookup_insert_ne).
  all: rewrite ?orb_false_r; try done.
  all: match goal with
       | H : (0 <? Z.of_nat (String.length ?s)) = _ |- _ =>
           destruct s; simpl in *; rewrite ?orb_true_r, ?orb_false_r; done
       end.
Qed.

(** X24.  The availability check of the earlier revision never lowers the
    flag: it never throws, and the flag it leaves is the old flag or-ed
    with whether a non-empty file is at the canonical path, so that a
    package that has vanished stays reported as available. *)
Theorem legacy_checkOfflineMapAvailability_never_lowers (st : State) :
  let r := Legacy.checkOfflineMapAvailability platform host st in
  outcome r = Returned tt /\
  st_offlineMapAvailable (final r) =
    st_offlineMapAvailable st ||
    match st_files st !! Legacy.mbtilesPath platform with
    | Some content => negb (bool_decide (content = EmptyString))
    | None => false
    end /\
  alerts_of (events r) = [].
Proof.
  run_legacy_check.
  all: repeat split; try done.
  all: rewrite ?orb_false_r; try done.
  all: match goal with
       | H : (0 <? Z.of_nat (String.length ?s)) = _ |- _ =>
           destruct s; simpl in *; rewrite ?orb_true_r, ?orb_false_r; done
       end.
Qed.

Lemma legacy_process_frame (filePath : string) (st : State) :
  let r := Legacy.processDownloadedFile platform host filePath st in
  st_downloading (final r) = st_downloading st /\
  st_downloadProgress (final r) = st_downloadProgress st /\
  progress_of (events r) = [] /\
  transfers_of (events r) = [] /\
  ((outcome r = Returned tt /\ exists alert, alerts_of (events r) = [alert]) \/
   (exists message,
      Legacy.message_of_other host = Legacy.Throws message /\
      outcome r = Thrown (Error message) /\
      alerts_of (events r) = [])).
Proof.
  cbv zeta.
  unfold Legacy.processDownloadedFile, Legacy.readMessage, getInfoAsync, moveAsync.
  unfold_m. simpl.
  run.
  all: repeat match goal with
       | H : Legacy.checkOfflineMapAvailability platform host ?s = _ |- _ =>
           let F := fresh "F" in
           pose proof (legacy_check_frame s) as F; rewrite H in F; simpl in F;
           destruct F as (? & _ & ? & ? & ? & ? & ? & _); clear H
       end.
  all: simplify_eq; simpl; autorewrite with trace; simpl.
  all: repeat match goal with
       | H : st_downloading _ = _ |- _ => rewrite H; clear H
       | H : st_downloadProgress _ = _ |- _ => rewrite H; clear H
       | H : progress_of _ = _ |- _ => rewrite H; clear H
       | H : transfers_of _ = _ |- _ => rewrite H; clear H
       | H : alerts_of _ = _ |- _ => rewrite H; clear H
       end.
  all: repeat (split; [reflexivity|]).
  all: first [ left; split; [reflexivity|]; eexists; reflexivity
             | right; eexists; repeat split; eauto ].
Qed.

Lemma last_cons {A} (a d : A) (l : list A) : List.last (a :: l) d = List.last l a.
Proof.
  revert a d. induction l as [|b l IH]; intros a d; [done|].
  change (List.last (a :: b :: l) d) with (List.last (b :: l) d).
  by rewrite !IH.
Qed.

Lemma legacy_forEach_reports (l : list DownloadProgressData) (st : State) :
  forEach l Legacy.onDownloadProgress st =
  Build_Run (Returned tt)
    {| st_files := st_files st; st_downloading := st_downloading st;
       st_downloadProgress := List.last (map Legacy.reported l) (st_downloadProgress st);
       st_offlineMapAvailable := st_offlineMapAvailable st;
       st_db := st_db st |}
    (map (fun d => SetDownloadProgress (Legacy.reported d)) l).
Proof.
  revert st. induction l as [|d l IH]; intros st; [by destruct st|].
  rewrite forEach_cons. unfold Legacy.onDownloadProgress at 1. unfold_m.
  rewrite IH. cbn [map]. rewrite last_cons. reflexivity.
Qed.

Lemma legacy_progress_of_reports (l : list DownloadProgressData) :
  progress_of (map (fun d => SetDownloadProgress (Legacy.reported d)) l) =
  map Legacy.reported l.
Proof. induction l as [|d l IH]; [done|]. simpl. by rewrite progress_of_cons, IH. Qed.

Lemma legacy_transfers_of_reports (l : list DownloadProgressData) :
  transfers_of (map (fun d => SetDownloadProgress (Legacy.reported d)) l) = [].
Proof. induction l as [|d l IH]; [done|]. simpl. by rewrite transfers_of_cons. Qed.

Lemma legacy_alerts_of_reports (l : list DownloadProgressData) :
  alerts_of (map (fun d => SetDownloadProgress (Legacy.reported d)) l) = [].
Proof. induction l as [|d l IH]; [done|]. simpl. by rewrite alerts_of_cons. Qed.

(** X25.  The earlier revision installs whatever it is given.  Its
    [processDownloadedFile] reads no byte of the file: any file that is not
    empty and can be moved becomes the package, the availability flag is
    raised and the success alert is shown. *)
Theorem legacy_processDownloadedFile_installs_any_file
    (filePath content : string) (st : State) :
  st_files st !! filePath = Some content ->
  content <> EmptyString ->
  moveAsync_fault platform filePath (Legacy.mbtilesPath platform) = None ->
  let r := Legacy.processDownloadedFile platform host filePath st in
  outcome r = Returned tt /\
  st_files (final r) !! Legacy.mbtilesPath platform = Some content /\
  st_offlineMapAvailable (final r) = true /\
  alerts_of (events r) =
    [("Success!",
      "Offline map downloaded successfully! You can now use maps even without internet connection.")].
Proof.
  intros Hfile Hcontent Hmove. cbv zeta.
  unfold Legacy.processDownloadedFile, getInfoAsync, moveAsync. unfold_m. simpl.
  rewrite Hfile, Hmove. simpl. rewrite Hfile. simpl.
  rewrite lookup_insert_eq. simpl.
  destruct content as [|c content]; [done|]. simpl.
  match goal with |- context [Legacy.checkOfflineMapAvailability platform host ?s] =>
    pose proof (legacy_check_frame s) as H;
    destruct (Legacy.checkOfflineMapAvailability platform host s) as [o s' t]
  end.
  simpl in *. destruct H as (-> & Hfiles & _ & _ & _ & _ & Ha & Hflag).
  rewrite lookup_insert_eq in Hflag. simpl.
  autorewrite with trace. simpl. rewrite Ha, Hflag.
  rewrite Hfiles by (symmetry; apply legacy_paths_distinct).
  rewrite lookup_insert_eq, orb_true_r. by repeat split.
Qed.

Ltac run_legacy_download :=
  unfold Legacy.startDownload, Legacy.readMessage, getInfoAsync,
    Legacy.deleteAsync_strict, downloadAsync;
  unfold_m; simpl;
  repeat (first [rewrite legacy_forEach_reports | inner_case]; simpl in *; simplify_eq);
  repeat match goal with
    | H : Legacy.processDownloadedFile platform host ?p ?s = _ |- _ =>
        let F := fresh "F" in
        pose proof (legacy_process_frame p s) as F; rewrite H in F; simpl in F;
        destruct F as (? & ? & ? & ? & [[? [? ?]]|(? & ? & ? & ?)]); clear H
    end;
  simplify_eq; simpl; autorewrite with trace; simpl;
  rewrite ?legacy_progress_of_reports, ?legacy_transfers_of_reports,
    ?legacy_alerts_of_reports;
  repeat match goal with
    | H : st_downloading _ = _ |- _ => rewrite H; clear H
    | H : st_downloadProgress _ = _ |- _ => rewrite H; clear H
    | H : progress_of _ = _ |- _ => rewrite H; clear H
    | H : transfers_of _ = _ |- _ => rewrite H; clear H
    | H : alerts_of _ = _ |- _ => rewrite H; clear H
    end;
  autorewrite with trace; simpl; rewrite ?app_nil_r.

Lemma legacy_startDownload_transfer (st : State) :
  deleteAsync_fault platform (Legacy.zipPath platform) = None ->
  let r := Legacy.startDownload platform host st in
  st_downloading (final r) = false /\
  transfers_of (events r) = [(Legacy.GITHUB_RELEASE_URL, Legacy.zipPath platform)].
Proof.
  intros Hfault. cbv zeta. run_legacy_download. all: by split.
Qed.

(** X26.  In the earlier revision the progress is the bare fraction of each
    report.  Unless the stale archive cannot be deleted, [startDownload]
    makes exactly one transfer, to the archive path, and reports zero
    followed by the fractions, neither capped nor completed by the
    installation nor reset at the end; the value left on the screen is the
    last fraction, and the downloading flag is cleared.  It shows exactly
    one alert and returns, except when the transfer rejects with a value
    that is not an [Error] and whose message cannot be read: then the
    TypeError of the unguarded read in the catch escapes and no alert is
    shown. *)
Theorem legacy_startDownload_progress_is_uncapped (st : State) :
  deleteAsync_fault platform (Legacy.zipPath platform) = None ->
  let transfer := serve platform Legacy.GITHUB_RELEASE_URL in
  let ratios := map Legacy.reported (reports transfer) in
  let r := Legacy.startDownload platform host st in
  progress_of (events r) = Fin 0 :: ratios /\
  st_downloadProgress (final r) = List.last ratios (Fin 0) /\
  st_downloading (final r) = false /\
  transfers_of (events r) = [(Legacy.GITHUB_RELEASE_URL, Legacy.zipPath platform)] /\
  ((outcome r = Returned tt /\ exists alert, alerts_of (events r) = [alert]) \/
   (exists message,
      settles transfer = Fails NotAnError /\
      Legacy.message_of_other host = Legacy.Throws message /\
      outcome r = Thrown (Error message) /\
      alerts_of (events r) = [])).
Proof.
  intros Hfault. cbv zeta. run_legacy_download.
  all: repeat (split; [reflexivity|]).
  all: first [ left; split; [reflexivity|]; eexists; reflexivity
             | right; eexists; repeat split; eauto ].
Qed.

End LegacyFrames.

Lemma legacy_processDownloadedFile_installs_any_file_witness :
  let platform := fakePlatform (delivers plainPage) (delivers plainPage) tilesDatabase in
  let st := staleState plainPage in
  let r := Legacy.processDownloadedFile platform (Legacy.fakeHost tilesDatabase)
             "file:///data/kolkata_10km_download.mbtiles" st in
  st_files (final r) !! "file:///data/kolkata_10km.mbtiles" = Some plainPage /\
  st_offlineMapAvailable (final r) = true.
Proof.
  intros platform st r.
  destruct (legacy_processDownloadedFile_installs_any_file platform
              (Legacy.fakeHost tilesDatabase)
              "file:///data/kolkata_10km_download.mbtiles" plainPage st
              eq_refl ltac:(discriminate) eq_refl) as (_ & H1 & H2 & _).
  by split.
Defined.

Lemma legacy_startDownload_progress_is_uncapped_witness :
  let platform := fakePlatform (delivers sqliteFile) (delivers sqliteFile) tilesDatabase in
  let r := Legacy.startDownload platform (Legacy.fakeHost tilesDatabase) emptyState in
  progress_of (events r) = [Fin 0; Fin (50 # 100); Fin (100 # 100)] /\
  st_downloadProgress (final r) = Fin (100 # 100) /\
  st_downloading (final r) = false.
Proof.
  intros platform r.
  destruct (legacy_startDownload_progress_is_uncapped platform
              (Legacy.fakeHost tilesDatabase) emptyState eq_refl)
    as (H1 & H2 & H3 & _).
  by repeat split.
Defined.

(** X27.  When the earlier revision downloads.  [downloadOfflineMap],
    followed by whichever button of its Location Notice, returns without
    a transfer or a store call and leaves the state alone when a download is
    under way or the location of the render is outside the coverage area,
    where it only shows the notice; in every other case it makes the one
    transfer of [startDownload] and ends with the downloading flag
    cleared. *)
Theorem legacy_downloadOfflineMap_transfers
    (platform : Platform) (host : Legacy.Host) (downloading : bool)
    (location : option Region.LocationState) (button : Legacy.Button) (st : State) :
  deleteAsync_fault platform (Legacy.zipPath platform) = None ->
  let r := (Legacy.downloadOfflineMap platform host downloading location ;;
            Legacy.locationNotice_onPress button) st in
  if downloading || Legacy.outsideCoverage location then
    outcome r = Returned tt /\
    final r = st /\
    transfers_of (events r) = [] /\
    store_calls_of (events r) = [] /\
    length (alerts_of (events r)) = (if downloading then 0 else 1)%nat
  else
    transfers_of (events r) = [(Legacy.GITHUB_RELEASE_URL, Legacy.zipPath platform)] /\
    st_downloading (final r) = false.
Proof.
  intros Hfault. cbv zeta.
  unfold Legacy.downloadOfflineMap, Legacy.locationNotice_onPress.
  destruct downloading; simpl; [unfold_m; by destruct st|].
  destruct (Legacy.outsideCoverage location); simpl; [unfold_m; by destruct st|].
  pose proof (legacy_startDownload_transfer platform host st Hfault) as H.
  unfold when. unfold_m.
  destruct (Legacy.startDownload platform host st) as [[[]|e] s t].
  all: simpl in *; destruct H as (Hd & Ht); by rewrite ?app_nil_r.
Qed.

Lemma legacy_downloadOfflineMap_transfers_witness :
  let platform := fakePlatform (delivers sqliteFile) (delivers sqliteFile) tilesDatabase in
  let location := {| Region.latitude := Fin 0; Region.longitude := Fin 0;
                     Region.latitudeDelta := Fin (1 # 100);
                     Region.longitudeDelta := Fin (1 # 100) |} in
  let r := (Legacy.downloadOfflineMap platform (Legacy.fakeHost tilesDatabase) false
              (Some location) ;;
            Legacy.locationNotice_onPress Legacy.DownloadButton) emptyState in
  final r = emptyState /\ transfers_of (events r) = [].
Proof.
  intros platform location r.
  destruct (legacy_downloadOfflineMap_transfers platform
              (Legacy.fakeHost tilesDatabase) false (Some location)
              Legacy.DownloadButton emptyState eq_refl) as (_ & H1 & H2 & _).
  by split.
Defined.

(** X28.  The delete of the earlier revision removes the package and the
    database copy without closing the handle: when neither delete fails,
    the only store calls are the two deletes, in that order, both files are
    gone, the flag is lowered and the handle is dropped. *)
Theorem legacy_deleteOfflineMap_removes_both_without_close
    (platform : Platform) (st : State) :
  deleteAsync_fault platform (Legacy.mbtilesPath platform) = None ->
  deleteAsync_fault platform (Legacy.dbPath platform) = None ->
  let r := Legacy.deleteOfflineMap_onPress platform st in
  store_calls_of (events r) =
    [Delete (Legacy.mbtilesPath platform); Delete (Legacy.dbPath platform)] /\
  st_files (final r) =
    delete (Legacy.dbPath platform) (delete (Legacy.mbtilesPath platform) (st_files st)) /\
  st_offlineMapAvailable (final r) = false /\
  st_db (final r) = None /\
  alerts_of (events r) = [("Success", "Offline map deleted successfully")].
Proof.
  intros Hpackage Hcopy. cbv zeta.
  unfold Legacy.deleteOfflineMap_onPress, deleteAsync. unfold_m.
  rewrite Hpackage, Hcopy. by repeat split.
Qed.

Lemma legacy_deleteOfflineMap_removes_both_without_close_witness :
  let platform := fakePlatform (delivers sqliteFile) (delivers sqliteFile) tilesDatabase in
  let r := Legacy.deleteOfflineMap_onPress platform (installedState sqliteFile) in
  st_files (final r) !! "file:///data/kolkata_10km.mbtiles" = None /\
  st_db (final r) = None.
Proof.
  intros platform r.
  destruct (legacy_deleteOfflineMap_removes_both_without_close platform
              (installedState sqliteFile) eq_refl eq_refl) as (_ & H1 & _ & H2 & _).
  split; [|done]. unfold r. by rewrite H1.
Defined.
